(** * versioncontrol: a uniform API over Bitbucket, GitHub and GitLab

    A shallow embedding of [versioncontrol/base.py], [bitbucket.py],
    [github.py] and [gitlab.py], and the properties of the safe-delete
    protocol, the creation defaults, the header merge and the facade.

    Python objects are modelled in two layers.
    - [pydata]: immutable data, the scalars and the containers obtained by
      decoding a JSON body.  The code only reads such values.
    - [val] and the store: a dictionary that the code mutates or shares
      ([kwargs], [headers], [default_settings], [mappings]) is an object of
      the store, and a value may be a reference [VRef] to it.  A dictionary
      that is only read (the [**kwargs] of a strategy method, a literal
      passed to [update]) is passed as its items.
    A dictionary keeps its insertion order, as Python's does.

    The HTTP library ([requests]) is the environment: a [transport] answers
    each call from the history of calls, so a provider may answer the same
    request differently over time.  Django's [slugify] and [json.dumps] are
    parameters as well. *)

From Stdlib Require Import ZArith Ascii String List.
From stdpp Require Import base list strings.

Local Open Scope string_scope.
Local Open Scope Z_scope.
Local Open Scope list_scope.

Module Base.

(** ** Data *)

(** Immutable data: [None], booleans, integers, strings, and the lists and
    dictionaries of a decoded JSON body. *)
#[warnings="-register-all"]
Inductive pydata :=
| DNone
| DBool (b : bool)
| DInt (z : Z)
| DStr (s : string)
| DList (l : list pydata)
| DDict (items : list (string * pydata)).

Abbreviation loc := nat.

(** The values of a dictionary of the store: scalars, and references to
    dictionaries of the store. *)
Inductive val :=
| VNone
| VBool (b : bool)
| VInt (z : Z)
| VStr (s : string)
| VRef (l : loc).
Arguments VRef l%_nat_scope.

Abbreviation pydict := (list (string * val)).
Abbreviation store := (list (list (string * val))).

(** [d.get(k)], [d[k] = v] and [d.update(other)] on insertion-ordered items. *)
Fixpoint dict_get {V} (d : list (string * V)) (k : string) : option V :=
  match d with
  | [] => None
  | (k', v) :: d' => if String.eqb k' k then Some v else dict_get d' k
  end.

Fixpoint dict_set {V} (d : list (string * V)) (k : string) (v : V) : list (string * V) :=
  match d with
  | [] => [(k, v)]
  | (k', v') :: d' =>
      if String.eqb k' k then (k', v) :: d' else (k', v') :: dict_set d' k v
  end.

Definition dict_update {V} (d other : list (string * V)) : list (string * V) :=
  fold_left (fun acc kv => dict_set acc (fst kv) (snd kv)) other d.

(** ** Exceptions and results *)

(** Python's exception classes.  [HTTPError] is what [raise_for_status]
    raises, [RequestException] stands for a failure of the transport, and
    [SystemError] for the use of a reference to no object of the store. *)
Inductive exn :=
| KeyError (k : string)
| AttributeError
| TypeError
| ValueError
| HTTPError (status : Z)
| NotImplementedError (msg : string)
| RequestException (msg : string)
| SystemError.

Inductive result (A : Type) :=
| Ok (a : A)
| Raise (e : exn).
Arguments Ok {A} a.
Arguments Raise {A} e.

(** ** Responses *)

(** [content] is what [Response.json()] decodes the body to, [None] when
    the body is not JSON. *)
Record Response := {
  status_code : Z;
  reason : string;
  content : option pydata
}.

Definition json (r : Response) : result pydata :=
  match content r with
  | Some j => Ok j
  | None => Raise ValueError
  end.

Definition raise_for_status (r : Response) : result unit :=
  if (400 <=? status_code r) && (status_code r <? 600)
  then Raise (HTTPError (status_code r))
  else Ok tt.

(** The body is [json.dumps({'message': reason})], which decodes to the
    dictionary it was made from. *)
Definition JSONResponse (reason : string) (status_code : Z) : Response :=
  {| status_code := status_code;
     reason := reason;
     content := Some (DDict [("message", DStr reason)]) |}.

(** ** The world: the store of dictionaries and the log of HTTP calls *)

Inductive verb := GET | POST | PUT | DELETE.

Record call := {
  c_verb : verb;
  c_url : string;
  c_timeout : Z;
  c_kwargs : pydict;
  c_store : store
}.

Record world := {
  heap : store;
  calls : list call
}.

(** A computation on a state [S] returns or raises, and leaves a state in
    both cases: what was changed before an exception stays changed. *)
Definition SE (S A : Type) : Type := S -> result A * S.
Abbreviation M := (SE world).

#[export] Instance SE_ret {S} : MRet (SE S) := fun A a s => (Ok a, s).
#[export] Instance SE_bind {S} : MBind (SE S) := fun A B f m s =>
  match m s with
  | (Ok a, s') => f a s'
  | (Raise e, s') => (Raise e, s')
  end.

Definition raise {S A} (e : exn) : SE S A := fun s => (Raise e, s).

Definition lift {S A} (r : result A) : SE S A := fun s => (r, s).

(** [try: body except <the exceptions h handles>: h e] *)
Definition try_except {S A} (body : SE S A) (h : exn -> option (SE S A)) : SE S A :=
  fun s =>
    match body s with
    | (Ok a, s') => (Ok a, s')
    | (Raise e, s') =>
        match h e with
        | Some handler => handler s'
        | None => (Raise e, s')
        end
    end.

Fixpoint for_each {S A} (f : A -> SE S unit) (l : list A) : SE S unit :=
  match l with
  | [] => mret tt
  | a :: l' => f a ;; for_each f l'
  end.

(** A new dictionary object. *)
Definition new_dict (items : pydict) : M val :=
  fun w => (Ok (VRef (length (heap w))),
            {| heap := heap w ++ [items]; calls := calls w |}).

(** [target[key]] *)
Definition getitem (target : val) (key : string) : M val :=
  fun w =>
    match target with
    | VRef l =>
        match heap w !! l with
        | Some d =>
            match dict_get d key with
            | Some v => (Ok v, w)
            | None => (Raise (KeyError key), w)
            end
        | None => (Raise SystemError, w)
        end
    | _ => (Raise TypeError, w)
    end.

(** [target.update(items)] for a dictionary given by its items. *)
Definition update_items (target : val) (items : pydict) : M unit :=
  fun w =>
    match target with
    | VRef l =>
        match heap w !! l with
        | Some d =>
            (Ok tt, {| heap := <[l := dict_update d items]> (heap w);
                       calls := calls w |})
        | None => (Raise SystemError, w)
        end
    | _ => (Raise AttributeError, w)
    end.

(** [target.update(other)]: only a dictionary has the method; the argument
    is a dictionary, or the empty string (no pair to add); a string with
    characters is not a sequence of pairs, the other scalars are not
    iterable. *)
Definition update (target other : val) : M unit :=
  match target with
  | VRef _ =>
      match other with
      | VRef o =>
          fun w =>
            match heap w !! o with
            | Some d' => update_items target d' w
            | None => (Raise SystemError, w)
            end
      | VStr EmptyString => mret tt
      | VStr _ => raise ValueError
      | _ => raise TypeError
      end
  | _ => raise AttributeError
  end.

(** ** [merge_dict] *)

Definition merge_entry (thedict : val) (kv : string * val) : M unit :=
  let '(key, value) := kv in
  try_except
    (x ← getitem thedict key; update x value)
    (fun e => match e with
              | KeyError _ => Some (update_items thedict [(key, value)])
              | _ => None
              end).

Definition merge_dict (thedict : val) (kwargs_with_dict_values : pydict) : M val :=
  for_each (merge_entry thedict) kwargs_with_dict_values ;;
  mret thedict.

(** ** The request executor ([ServiceRequestsMixin]) *)

Record ServiceRequestsMixin := {
  base_url : string;
  headers : val;
  timeout : Z
}.

(** [sep.join(items)]: every item has to be a string. *)
Fixpoint str_items (items : list pydata) : option (list string) :=
  match items with
  | [] => Some []
  | DStr s :: items' => cons s <$> str_items items'
  | _ :: _ => None
  end.

Definition join (sep : string) (items : list pydata) : result string :=
  match str_items items with
  | Some ss => Ok (String.concat sep ss)
  | None => Raise TypeError
  end.

Definition url_for_endpoint (self : ServiceRequestsMixin)
    (endpoint : string) (args : list pydata) : result string :=
  join "/" ([DStr (base_url self); DStr endpoint] ++ args).

Section Executor.

(** What the HTTP library answers to a call, given the calls made before. *)
Variable transport : list call -> call -> result Response.

(** [requests.<verb>(url, timeout=timeout, **kwargs)]: a [timeout] among
    [kwargs] is a second value for the same keyword. *)
Definition request (m : verb) (url : string) (timeout : Z) (kwargs : val) : M Response :=
  fun w =>
    match kwargs with
    | VRef k =>
        match heap w !! k with
        | Some kw =>
            match dict_get kw "timeout" with
            | Some _ => (Raise TypeError, w)
            | None =>
                let c := {| c_verb := m; c_url := url; c_timeout := timeout;
                            c_kwargs := kw; c_store := heap w |} in
                (transport (calls w) c,
                 {| heap := heap w; calls := calls w ++ [c] |})
            end
        | None => (Raise SystemError, w)
        end
    | _ => (Raise TypeError, w)
    end.

Definition get (self : ServiceRequestsMixin) (endpoint : string)
    (args : list pydata) (kwargs : pydict) : M Response :=
  kwargs ← new_dict kwargs;
  url ← lift (url_for_endpoint self endpoint args);
  kwargs ← merge_dict kwargs [("headers", headers self)];
  request GET url (timeout self) kwargs.

Definition post (self : ServiceRequestsMixin) (endpoint : string)
    (args : list pydata) (kwargs : pydict) : M Response :=
  kwargs ← new_dict kwargs;
  url ← lift (url_for_endpoint self endpoint args);
  kwargs ← merge_dict kwargs [("headers", headers self)];
  request POST url (timeout self) kwargs.

Definition put (self : ServiceRequestsMixin) (endpoint : string)
    (args : list pydata) (kwargs : pydict) : M Response :=
  kwargs ← new_dict kwargs;
  url ← lift (url_for_endpoint self endpoint args);
  kwargs ← merge_dict kwargs [("headers", headers self)];
  request PUT url (timeout self) kwargs.

Definition delete (self : ServiceRequestsMixin) (endpoint : string)
    (args : list pydata) (kwargs : pydict) : M Response :=
  kwargs ← new_dict kwargs;
  url ← lift (url_for_endpoint self endpoint args);
  kwargs ← merge_dict kwargs [("headers", headers self)];
  request DELETE url (timeout self) kwargs.

Definition get_json_or_raise (self : ServiceRequestsMixin) (endpoint : string)
    (args : list pydata) (kwargs : pydict) : M pydata :=
  response ← get self endpoint args kwargs;
  lift (raise_for_status response) ;;
  lift (json response).

End Executor.

(** ** The strategy interface ([ServiceAPIStrategy]) *)

Definition DEFAULT_TIMEOUT : Z := 30.

Definition HTTP400_DELETION_REFUSED : Response :=
  JSONResponse "Slug does not match project. Deletion refused." 400.

(** [ServiceAPIStrategy.__init__]; [headers] is [VNone] when left out. *)
Definition ServiceAPIStrategy_init (base_url oauth_token : string)
    (headers : val) (timeout : Z) : M ServiceRequestsMixin :=
  headers ← match headers with
            | VNone => new_dict []
            | _ => mret headers
            end;
  update_items headers [("Authorization", VStr ("Bearer " +:+ oauth_token))] ;;
  mret {| base_url := base_url; headers := headers; timeout := timeout |}.

(** The six abstract methods.  An optional [slug] is [None] when left out;
    [kwargs] are the remaining keyword arguments. *)
Record ServiceAPIStrategy := {
  create_project : string -> option string -> pydict -> M Response;
  update_project : string -> option string -> pydict -> M Response;
  delete_project : string -> string -> M Response;
  list_projects : M Response;
  project_details : string -> M Response;
  add_deploy_key : string -> string -> string -> bool -> M Response
}.

(** [value[key]] on decoded JSON. *)
Definition subscript (value : pydata) (key : string) : result pydata :=
  match value with
  | DDict items =>
      match dict_get items key with
      | Some v => Ok v
      | None => Raise (KeyError key)
      end
  | _ => Raise TypeError
  end.

(** [value == slug] for a string [slug]. *)
Definition eq_str (value : pydata) (slug : string) : bool :=
  match value with
  | DStr s => String.eqb s slug
  | _ => false
  end.

(** The truth value of an optional string: [None] and [''] are false. *)
Definition truthy (slug : option string) : bool :=
  match slug with
  | None | Some EmptyString => false
  | Some _ => true
  end.

Definition opt_data (slug : option string) : pydata :=
  match slug with
  | Some s => DStr s
  | None => DNone
  end.

Definition opt_val (slug : option string) : val :=
  match slug with
  | Some s => VStr s
  | None => VNone
  end.

(** ** The facade ([ServiceAPI]) *)

Record ServiceAPI := {
  strategy : ServiceAPIStrategy;
  response : pydata
}.

Definition ServiceAPI_init (strategy : ServiceAPIStrategy) : ServiceAPI :=
  {| strategy := strategy; response := DNone |}.

(** The methods of the facade run on the facade object and the world. *)
Abbreviation F := (SE (ServiceAPI * world)).

Definition in_world {A} (m : M A) : F A :=
  fun s => let '(r, w) := m (snd s) in (r, (fst s, w)).

Definition self_strategy : F ServiceAPIStrategy :=
  fun s => (Ok (strategy (fst s)), s).

Definition set_response (j : pydata) : F unit :=
  fun s => (Ok tt, ({| strategy := strategy (fst s); response := j |}, snd s)).

Module ServiceAPI.

Definition create_project (name : string) (slug : option string) (kwargs : pydict) : F unit :=
  strategy ← self_strategy;
  response ← in_world (create_project strategy name slug kwargs);
  j ← lift (json response); set_response j ;;
  lift (raise_for_status response).

Definition update_project (key : string) (slug : option string) (kwargs : pydict) : F unit :=
  strategy ← self_strategy;
  response ← in_world (update_project strategy key slug kwargs);
  j ← lift (json response); set_response j ;;
  lift (raise_for_status response).

Definition delete_project (key slug : string) : F unit :=
  strategy ← self_strategy;
  response ← in_world (delete_project strategy key slug);
  j ← lift (json response); set_response j ;;
  lift (raise_for_status response).

Definition list_projects : F unit :=
  strategy ← self_strategy;
  response ← in_world (list_projects strategy);
  j ← lift (json response); set_response j ;;
  lift (raise_for_status response).

Definition project_details (key : string) : F unit :=
  strategy ← self_strategy;
  response ← in_world (project_details strategy key);
  j ← lift (json response); set_response j ;;
  lift (raise_for_status response).

Definition add_deploy_key (project_id key_title ssh_key : string) (read_only : bool) : F unit :=
  strategy ← self_strategy;
  response ← in_world (add_deploy_key strategy project_id key_title ssh_key read_only);
  j ← lift (json response); set_response j ;;
  lift (raise_for_status response).

End ServiceAPI.

End Base.

Import Base.

(** * Bitbucket *)

Module Bitbucket.
Section Strategy.

Variable transport : list call -> call -> result Response.
Variable slugify : string -> string.

Definition init (oauth_token : string) : M ServiceRequestsMixin :=
  ServiceAPIStrategy_init "https://api.bitbucket.org/2.0" oauth_token VNone DEFAULT_TIMEOUT.

Definition username (self : ServiceRequestsMixin) : M pydata :=
  user_details ← get_json_or_raise transport self "user" [] [];
  lift (subscript user_details "username").

Definition create_project (self : ServiceRequestsMixin)
    (name : string) (slug : option string) (kwargs : pydict) : M Response :=
  default_settings ← new_dict [
    ("has_issues", VBool false);
    ("has_wiki", VBool false);
    ("is_private", VBool true);
    ("name", VStr name);
    ("scm", VStr "git")
  ];
  update_items default_settings kwargs ;;
  let slug := if truthy slug then opt_data slug else DStr (slugify name) in
  username ← username self;
  post transport self "repositories" [username; slug] [("json", default_settings)].

Definition update_project (self : ServiceRequestsMixin)
    (key : string) (slug : option string) (kwargs : pydict) : M Response :=
  mappings ← new_dict [];
  update_items mappings kwargs ;;
  username ← username self;
  put transport self "repositories" [username; opt_data slug] [("json", mappings)].

Definition project_details (self : ServiceRequestsMixin) (key : string) : M Response :=
  username ← username self;
  get transport self "repositories" [username; DStr key] [].

Definition delete_project (self : ServiceRequestsMixin) (key slug : string) : M Response :=
  response ← project_details self key;
  lift (raise_for_status response) ;;
  project_details ← lift (json response);
  name ← lift (subscript project_details "name");
  if eq_str name slug then
    username ← username self;
    delete transport self "repositories" [username; DStr slug] []
  else mret HTTP400_DELETION_REFUSED.

Definition list_projects (self : ServiceRequestsMixin) : M Response :=
  username ← username self;
  get transport self "repositories" [username] [].

Definition add_deploy_key (self : ServiceRequestsMixin)
    (project_id key_title ssh_key : string) (read_only : bool) : M Response :=
  raise (NotImplementedError "Not available on Bitbucket, we're sorry!").

Definition BitbucketStrategy (self : ServiceRequestsMixin) : ServiceAPIStrategy :=
  {| Base.create_project := create_project self;
     Base.update_project := update_project self;
     Base.delete_project := delete_project self;
     Base.list_projects := list_projects self;
     Base.project_details := project_details self;
     Base.add_deploy_key := add_deploy_key self |}.

(** [BitbucketAPI(oauth_token)] *)
Definition BitbucketAPI (oauth_token : string) : M ServiceAPI :=
  self ← init oauth_token;
  mret (ServiceAPI_init (BitbucketStrategy self)).

End Strategy.
End Bitbucket.

(** * GitHub *)

Module GitHub.
Section Strategy.

Variable transport : list call -> call -> result Response.
Variable slugify : string -> string.
Variable json_dumps : pydict -> string.

Definition init (oauth_token : string) : M ServiceRequestsMixin :=
  headers ← new_dict [("Accept", VStr "application/vnd.github.v3+json")];
  ServiceAPIStrategy_init "https://api.github.com" oauth_token headers DEFAULT_TIMEOUT.

Definition username (self : ServiceRequestsMixin) : M pydata :=
  user_details ← get_json_or_raise transport self "user" [] [];
  lift (subscript user_details "login").

Definition create_project (self : ServiceRequestsMixin)
    (name : string) (slug : option string) (kwargs : pydict) : M Response :=
  default_settings ← new_dict [
    ("has_issues", VBool false);
    ("has_wiki", VBool false);
    ("name", if truthy slug then opt_val slug else VStr (slugify name));
    ("private", VBool false)
  ];
  update_items default_settings kwargs ;;
  post transport self "user" [DStr "repos"] [("json", default_settings)].

Definition update_project (self : ServiceRequestsMixin)
    (key : string) (slug : option string) (kwargs : pydict) : M Response :=
  mappings ← new_dict [];
  update_items mappings kwargs ;;
  username ← username self;
  put transport self "repos" [username; DStr key] [("json", mappings)].

Definition project_details (self : ServiceRequestsMixin) (key : string) : M Response :=
  username ← username self;
  get transport self "repos" [username; DStr key] [].

Definition delete_project (self : ServiceRequestsMixin) (key slug : string) : M Response :=
  response ← project_details self key;
  lift (raise_for_status response) ;;
  project_details ← lift (json response);
  path ← lift (subscript project_details "path");
  if eq_str path slug then
    username ← username self;
    delete transport self "repos" [username; DStr key] []
  else mret HTTP400_DELETION_REFUSED.

Definition list_projects (self : ServiceRequestsMixin) : M Response :=
  get transport self "user" [DStr "repos"] [].

Definition add_deploy_key (self : ServiceRequestsMixin)
    (project_id key_title ssh_key : string) (read_only : bool) : M Response :=
  let payload := [
    ("title", VStr key_title);
    ("key", VStr ssh_key);
    ("read_only", VBool read_only)
  ] in
  username ← username self;
  post transport self "repos" [username; DStr project_id; DStr "keys"]
    [("data", VStr (json_dumps payload))].

Definition GitHubStrategy (self : ServiceRequestsMixin) : ServiceAPIStrategy :=
  {| Base.create_project := create_project self;
     Base.update_project := update_project self;
     Base.delete_project := delete_project self;
     Base.list_projects := list_projects self;
     Base.project_details := project_details self;
     Base.add_deploy_key := add_deploy_key self |}.

(** [GitHubAPI(oauth_token)] *)
Definition GitHubAPI (oauth_token : string) : M ServiceAPI :=
  self ← init oauth_token;
  mret (ServiceAPI_init (GitHubStrategy self)).

End Strategy.
End GitHub.

(** * GitLab *)

Module GitLab.
Section Strategy.

Variable transport : list call -> call -> result Response.

Definition init (oauth_token : string) : M ServiceRequestsMixin :=
  ServiceAPIStrategy_init "https://gitlab.com/api/v4" oauth_token VNone DEFAULT_TIMEOUT.

Definition create_project (self : ServiceRequestsMixin)
    (name : string) (slug : option string) (kwargs : pydict) : M Response :=
  default_settings ← new_dict [
    ("builds_enabled", VBool true);
    ("issues_enabled", VBool false);
    ("merge_requests_enabled", VBool true);
    ("name", VStr name);
    ("path", opt_val slug);
    ("public", VBool false);
    ("public_builds", VBool false);
    ("snippets_enabled", VBool false);
    ("wiki_enabled", VBool false)
  ];
  update_items default_settings kwargs ;;
  post transport self "projects" [] [("params", default_settings)].

Definition update_project (self : ServiceRequestsMixin)
    (key : string) (slug : option string) (kwargs : pydict) : M Response :=
  mappings ← new_dict [("path", opt_val slug)];
  update_items mappings kwargs ;;
  put transport self "projects" [DStr key] [("params", mappings)].

Definition project_details (self : ServiceRequestsMixin) (key : string) : M Response :=
  get transport self "projects" [DStr key] [].

Definition delete_project (self : ServiceRequestsMixin) (key slug : string) : M Response :=
  response ← project_details self key;
  lift (raise_for_status response) ;;
  project_details ← lift (json response);
  path ← lift (subscript project_details "path");
  if eq_str path slug then delete transport self "projects" [DStr key] []
  else mret HTTP400_DELETION_REFUSED.

Definition list_projects (self : ServiceRequestsMixin) : M Response :=
  get transport self "projects" [] [].

Definition add_deploy_key (self : ServiceRequestsMixin)
    (project_id key_title ssh_key : string) (read_only : bool) : M Response :=
  payload ← new_dict [
    ("id", VStr project_id);
    ("title", VStr key_title);
    ("key", VStr ssh_key);
    ("can_push", VBool (negb read_only))
  ];
  post transport self "projects" [DStr project_id; DStr "deploy_keys"]
    [("params", payload)].

Definition GitLabStrategy (self : ServiceRequestsMixin) : ServiceAPIStrategy :=
  {| Base.create_project := create_project self;
     Base.update_project := update_project self;
     Base.delete_project := delete_project self;
     Base.list_projects := list_projects self;
     Base.project_details := project_details self;
     Base.add_deploy_key := add_deploy_key self |}.

(** [GitLabAPI(oauth_token)] *)
Definition GitLabAPI (oauth_token : string) : M ServiceAPI :=
  self ← init oauth_token;
  mret (ServiceAPI_init (GitLabStrategy self)).

End Strategy.
End GitLab.

(** * Providers, requests on the log, and sample environments *)

Inductive provider := bitbucket | github | gitlab.

Definition strategy_of (transport : list call -> call -> result Response)
    (slugify : string -> string) (json_dumps : pydict -> string)
    (p : provider) (self : ServiceRequestsMixin) : ServiceAPIStrategy :=
  match p with
  | bitbucket => Bitbucket.BitbucketStrategy transport slugify self
  | github => GitHub.GitHubStrategy transport slugify json_dumps self
  | gitlab => GitLab.GitLabStrategy transport self
  end.

(** The field of the fetched project that [delete_project] compares. *)
Definition identifying_field (p : provider) : string :=
  match p with
  | bitbucket => "name"
  | github | gitlab => "path"
  end.

(** The request line of a call, and the URL made of path segments. *)
Definition request_line (c : call) : verb * string := (c_verb c, c_url c).

Definition url_of (self : ServiceRequestsMixin) (segments : list string) : string :=
  String.concat "/" (base_url self :: segments).

(** The dictionary a call carries under a keyword, and a field of it. *)
Definition payload (c : call) (keyword : string) : option pydict :=
  match dict_get (c_kwargs c) keyword with
  | Some (VRef l) => c_store c !! l
  | _ => None
  end.

Definition payload_field (c : call) (keyword field : string) : option val :=
  match payload c keyword with
  | Some d => dict_get d field
  | None => None
  end.

(** The six operations of the facade, as data. *)
Inductive operation :=
| CreateProject (name : string) (slug : option string) (kwargs : pydict)
| UpdateProject (key : string) (slug : option string) (kwargs : pydict)
| DeleteProject (key slug : string)
| ListProjects
| ProjectDetails (key : string)
| AddDeployKey (project_id key_title ssh_key : string) (read_only : bool).

Definition strategy_run (s : ServiceAPIStrategy) (o : operation) : M Response :=
  match o with
  | CreateProject name slug kwargs => create_project s name slug kwargs
  | UpdateProject key slug kwargs => update_project s key slug kwargs
  | DeleteProject key slug => delete_project s key slug
  | ListProjects => list_projects s
  | ProjectDetails key => project_details s key
  | AddDeployKey project_id key_title ssh_key read_only =>
      add_deploy_key s project_id key_title ssh_key read_only
  end.

Definition facade_run (o : operation) : F unit :=
  match o with
  | CreateProject name slug kwargs => ServiceAPI.create_project name slug kwargs
  | UpdateProject key slug kwargs => ServiceAPI.update_project key slug kwargs
  | DeleteProject key slug => ServiceAPI.delete_project key slug
  | ListProjects => ServiceAPI.list_projects
  | ProjectDetails key => ServiceAPI.project_details key
  | AddDeployKey project_id key_title ssh_key read_only =>
      ServiceAPI.add_deploy_key project_id key_title ssh_key read_only
  end.

(** The four verbs of the executor. *)
Definition executor (transport : list call -> call -> result Response) (m : verb) :
    ServiceRequestsMixin -> string -> list pydata -> pydict -> M Response :=
  match m with
  | GET => get transport
  | POST => post transport
  | PUT => put transport
  | DELETE => delete transport
  end.

(** [emits P m]: whatever [m] returns, the calls it adds to the log all
    satisfy [P].  With [P] unsatisfiable, [m] makes no call. *)
Definition emits {A} (P : call -> Prop) (m : M A) : Prop :=
  forall w r w', m w = (r, w') ->
    exists cs, calls w' = calls w ++ cs /\ Forall P cs.

Definition no_call : call -> Prop := fun _ => False.

(** The environment answers every request of verb [m] to [url] with [r]. *)
Definition answers (transport : list call -> call -> result Response)
    (m : verb) (url : string) (r : Response) : Prop :=
  forall history c, request_line c = (m, url) -> transport history c = Ok r.

(** Sample environments. *)
Module Sample.

Definition empty : world := {| heap := []; calls := [] |}.

Definition ok (j : pydata) : Response :=
  {| status_code := 200; reason := "OK"; content := Some j |}.

Definition answer (status : Z) (j : pydata) : Response :=
  {| status_code := status; reason := ""; content := Some j |}.

Definition user : pydata :=
  DDict [("username", DStr "alice"); ("login", DStr "alice")].

Definition demo : pydata :=
  DDict [("name", DStr "demo"); ("path", DStr "demo")].

(** A provider that knows the user [alice] and the project [demo] under
    key [123], and answers the details of that project with [status]. *)
Definition provider_with (status : Z) (history : list call) (c : call) : result Response :=
  match c_verb c with
  | GET =>
      if String.eqb (c_url c) "https://api.bitbucket.org/2.0/user"
         || String.eqb (c_url c) "https://api.github.com/user"
      then Ok (ok user)
      else Ok (answer status demo)
  | POST => Ok (answer 201 (DDict []))
  | PUT => Ok (ok (DDict []))
  | DELETE => Ok (answer 204 (DDict []))
  end.

Definition transport := provider_with 200.

(** A slug of the ASCII letters, digits, hyphens and spaces of a name. *)
Definition lower (a : ascii) : ascii :=
  let n := nat_of_ascii a in
  if (Nat.leb 65 n && Nat.leb n 90)%bool then ascii_of_nat (n + 32) else a.

Fixpoint slugify (s : string) : string :=
  match s with
  | EmptyString => EmptyString
  | String a s' =>
      let n := nat_of_ascii a in
      if Nat.eqb n 32 then String "-" (slugify s')
      else if ((Nat.leb 48 n && Nat.leb n 57) || (Nat.leb 65 n && Nat.leb n 90)
               || (Nat.leb 97 n && Nat.leb n 122) || Nat.eqb n 45)%bool
      then String (lower a) (slugify s')
      else slugify s'
  end.

Definition json_dumps (d : pydict) : string := "{}".

Definition bitbucket_self : ServiceRequestsMixin :=
  {| base_url := "https://api.bitbucket.org/2.0"; headers := VRef 0; timeout := 30 |}.
Definition github_self : ServiceRequestsMixin :=
  {| base_url := "https://api.github.com"; headers := VRef 0; timeout := 30 |}.
Definition gitlab_self : ServiceRequestsMixin :=
  {| base_url := "https://gitlab.com/api/v4"; headers := VRef 0; timeout := 30 |}.

Definition self_of (p : provider) : ServiceRequestsMixin :=
  match p with
  | bitbucket => bitbucket_self
  | github => github_self
  | gitlab => gitlab_self
  end.

(** The world after the constructor ran with token [t0ken]. *)
Definition start : world := snd (GitLab.init "t0ken" empty).

(** The same world, and a headers dictionary of the caller at index 1. *)
Definition with_caller_headers : world :=
  {| heap := heap start ++
             [[("Accept", VStr "text/plain"); ("Authorization", VStr "mine")]];
     calls := [] |}.

(** [{headers: {a: 1}}] at index 0, [{a: 1}] at 1, [{b: 2}] at 2 and
    [{headers: 7}] at 3. *)
Definition merging : world :=
  {| heap := [[("headers", VRef 1)]; [("a", VInt 1)]; [("b", VInt 2)];
              [("headers", VInt 7)]];
     calls := [] |}.

Definition strategy_for (status : Z) (p : provider) : ServiceAPIStrategy :=
  strategy_of (provider_with status) slugify json_dumps p (self_of p).

(** A provider that refuses every request with status 401 and a body
    that is not JSON. *)
Definition refusing (history : list call) (c : call) : result Response :=
  Ok {| status_code := 401; reason := "Unauthorized"; content := None |}.

End Sample.

(** ** What the operations send *)

(** The verbs an operation may use, and the most calls it makes on each
    provider. *)
Definition verbs (o : operation) : list verb :=
  match o with
  | CreateProject _ _ _ | AddDeployKey _ _ _ _ => [GET; POST]
  | UpdateProject _ _ _ => [GET; PUT]
  | DeleteProject _ _ => [GET; DELETE]
  | ListProjects | ProjectDetails _ => [GET]
  end.

Definition max_calls (p : provider) (o : operation) : nat :=
  match p, o with
  | bitbucket, AddDeployKey _ _ _ _ => 0
  | bitbucket, DeleteProject _ _ => 4
  | bitbucket, _ => 2
  | github, (CreateProject _ _ _ | ListProjects) => 1
  | github, DeleteProject _ _ => 4
  | github, _ => 2
  | gitlab, DeleteProject _ _ => 2
  | gitlab, _ => 1
  end.

(** A call of the strategy [self], made from a world whose store was [h]:
    its verb is among [allowed], it has the timeout of the strategy, its
    [headers] are the headers object of the strategy, and the store it was
    made in is [h] with new objects after it. *)
Definition carries (self : ServiceRequestsMixin) (allowed : list verb)
    (h : store) (c : call) : Prop :=
  c_verb c ∈ allowed
  /\ c_timeout c = timeout self
  /\ dict_get (c_kwargs c) "headers" = Some (headers self)
  /\ exists hs, c_store c = h ++ hs.

(** [sends P n m]: whatever [m] returns, it only adds objects to the store,
    and it adds at most [n] calls to the log, each satisfying [P] for the
    store [m] started from. *)
Definition sends {A} (P : store -> call -> Prop) (n : nat) (m : M A) : Prop :=
  forall w r w', m w = (r, w') ->
    exists hs cs,
      heap w' = heap w ++ hs /\ calls w' = calls w ++ cs /\
      (length cs <= n)%nat /\ Forall (P (heap w)) cs.

(** [P] holds of a call for a store as soon as it holds for a longer one. *)
Definition stable (P : store -> call -> Prop) : Prop :=
  forall h hs c, P (h ++ hs) c -> P h c.

(** * Properties *)

(** ** Dictionaries *)

Lemma dict_get_set {V} (d : list (string * V)) k v k' :
  dict_get (dict_set d k v) k' = if String.eqb k k' then Some v else dict_get d k'.
Proof.
  induction d as [|[k0 v0] d IH]; simpl.
  - reflexivity.
  - destruct (String.eqb_spec k0 k) as [->|Hne]; simpl.
    + destruct (String.eqb k k'); reflexivity.
    + rewrite IH. destruct (String.eqb_spec k0 k') as [->|Hne']; [|reflexivity].
      destruct (String.eqb_spec k k') as [->|_]; [congruence|reflexivity].
Qed.

Lemma dict_set_fresh {V} (d : list (string * V)) k v :
  dict_get d k = None -> dict_set d k v = d ++ [(k, v)].
Proof.
  induction d as [|[k0 v0] d IH]; simpl; [reflexivity|].
  destruct (String.eqb k0 k); [discriminate|].
  intros H. now rewrite IH.
Qed.

Lemma dict_get_fresh {V} (d : list (string * V)) k :
  k ∉ d.*1 -> dict_get d k = None.
Proof.
  induction d as [|[k0 v0] d IH]; simpl; [reflexivity|].
  intros Hk. apply not_elem_of_cons in Hk as [Hne Hk].
  destruct (String.eqb_spec k0 k) as [->|_]; [congruence|auto].
Qed.

(** [d.update(other)]: the entries of [other] win, the rest of [d] stays. *)
Lemma dict_get_update {V} (d other : list (string * V)) k :
  NoDup other.*1 ->
  dict_get (dict_update d other) k =
    match dict_get other k with
    | Some v => Some v
    | None => dict_get d k
    end.
Proof.
  unfold dict_update. revert d.
  induction other as [|[k0 v0] other IH]; intros d Hnd; simpl; [reflexivity|].
  apply NoDup_cons in Hnd as [Hk0 Hnd].
  rewrite IH by assumption. rewrite dict_get_set.
  destruct (String.eqb_spec k0 k) as [->|_]; [|reflexivity].
  now rewrite (dict_get_fresh other k Hk0).
Qed.

(** Updating with entries of other keys leaves a key as it was. *)
Lemma dict_get_update_other {V} (d other : list (string * V)) k :
  dict_get other k = None -> dict_get (dict_update d other) k = dict_get d k.
Proof.
  unfold dict_update. revert d.
  induction other as [|[k0 v0] other IH]; intros d; simpl; [reflexivity|].
  destruct (String.eqb_spec k0 k) as [->|Hne]; [discriminate|].
  intros H. rewrite IH by assumption. rewrite dict_get_set.
  destruct (String.eqb_spec k0 k); [congruence|reflexivity].
Qed.

Lemma eq_str_true value slug : eq_str value slug = true <-> value = DStr slug.
Proof.
  destruct value; simpl; try (split; [discriminate|congruence]).
  destruct (String.eqb_spec s slug); split; congruence.
Qed.

Lemma eq_str_refl slug : eq_str (DStr slug) slug = true.
Proof. now apply eq_str_true. Qed.

Lemma eq_str_false value slug : eq_str value slug = false <-> value <> DStr slug.
Proof.
  rewrite <- eq_str_true. destruct (eq_str value slug); split; congruence.
Qed.

(** ** Runs of the state and exception monad *)

Lemma run_bind {S A B} (m : SE S A) (f : A -> SE S B) s :
  (m ≫= f) s =
    match m s with
    | (Ok a, s') => f a s'
    | (Raise e, s') => (Raise e, s')
    end.
Proof. reflexivity. Qed.

Lemma run_bind_ok {S A B} (m : SE S A) (f : A -> SE S B) s a s' :
  m s = (Ok a, s') -> (m ≫= f) s = f a s'.
Proof. intros H. now rewrite run_bind, H. Qed.

Lemma run_bind_raise {S A B} (m : SE S A) (f : A -> SE S B) s e s' :
  m s = (Raise e, s') -> (m ≫= f) s = (Raise e, s').
Proof. intros H. now rewrite run_bind, H. Qed.

Lemma run_lift {S A} (r : result A) (s : S) : lift r s = (r, s).
Proof. reflexivity. Qed.

Lemma run_ret {S A} (a : A) (s : S) : mret (M := SE S) a s = (Ok a, s).
Proof. reflexivity. Qed.

(** ** What an operation adds to the log *)

Section Emits.

Context {A B : Type} (P : call -> Prop).

Lemma emits_same (m : M A) :
  (forall w r w', m w = (r, w') -> calls w' = calls w) -> emits P m.
Proof.
  intros H w r w' E. exists []. rewrite app_nil_r. eauto.
Qed.

Lemma emits_ret (a : A) : emits P (mret a).
Proof. apply emits_same. intros w r w' E. now inversion E. Qed.

Lemma emits_raise (e : exn) : emits P (raise (A := A) e).
Proof. apply emits_same. intros w r w' E. now inversion E. Qed.

Lemma emits_lift (r : result A) : emits P (lift r).
Proof. apply emits_same. intros w r' w' E. now inversion E. Qed.

Lemma emits_bind (m : M A) (f : A -> M B) :
  emits P m -> (forall a, emits P (f a)) -> emits P (m ≫= f).
Proof.
  intros Hm Hf w r w' E. rewrite run_bind in E.
  destruct (m w) as [[a|e] w1] eqn:E1.
  - destruct (Hm _ _ _ E1) as (cs1 & H1 & F1).
    destruct (Hf a _ _ _ E) as (cs2 & H2 & F2).
    exists (cs1 ++ cs2). rewrite H2, H1, app_assoc. split; [reflexivity|].
    apply Forall_app; auto.
  - inversion E; subst. eauto.
Qed.

Lemma emits_try (body : M A) (h : exn -> option (M A)) :
  emits P body -> (forall e handler, h e = Some handler -> emits P handler) ->
  emits P (try_except body h).
Proof.
  intros Hb Hh w r w' E. unfold try_except in E.
  destruct (body w) as [[a|e] w1] eqn:E1.
  - inversion E; subst. eauto.
  - destruct (Hb _ _ _ E1) as (cs1 & H1 & F1).
    destruct (h e) as [handler|] eqn:Eh.
    + destruct (Hh _ _ Eh _ _ _ E) as (cs2 & H2 & F2).
      exists (cs1 ++ cs2). rewrite H2, H1, app_assoc. split; [reflexivity|].
      apply Forall_app; auto.
    + inversion E; subst. eauto.
Qed.

Lemma emits_for_each (f : A -> M unit) (l : list A) :
  (forall a, emits P (f a)) -> emits P (for_each f l).
Proof.
  intros Hf. induction l as [|a l IH]; simpl.
  - intros w r w' E. inversion E; subst. exists []. now rewrite app_nil_r.
  - intros w r w' E. rewrite run_bind in E.
    destruct (f a w) as [[u|e] w1] eqn:E1.
    + destruct (Hf a _ _ _ E1) as (cs1 & H1 & F1).
      destruct (IH _ _ _ E) as (cs2 & H2 & F2).
      exists (cs1 ++ cs2). rewrite H2, H1, app_assoc. split; [reflexivity|].
      apply Forall_app; auto.
    + inversion E; subst. exact (Hf a _ _ _ E1).
Qed.

End Emits.

Lemma emits_new_dict P items : emits P (new_dict items).
Proof. apply emits_same. intros w r w' E. now inversion E. Qed.

Lemma emits_getitem P target key : emits P (getitem target key).
Proof.
  apply emits_same. intros w r w' E. unfold getitem in E.
  destruct target; try (now inversion E).
  destruct (heap w !! l); [|now inversion E].
  destruct (dict_get l0 key); now inversion E.
Qed.

Lemma emits_update_items P target items : emits P (update_items target items).
Proof.
  apply emits_same. intros w r w' E. unfold update_items in E.
  destruct target; try (now inversion E).
  destruct (heap w !! l); now inversion E.
Qed.

Lemma emits_update P target other : emits P (update target other).
Proof.
  destruct target; simpl; try apply emits_raise.
  destruct other; try apply emits_raise.
  - destruct s; [apply emits_ret | apply emits_raise].
  - intros w r w' E. destruct (heap w !! l0).
    + exact (emits_update_items P (VRef l) l1 w r w' E).
    + inversion E; subst. exists []. now rewrite app_nil_r.
Qed.

Lemma emits_merge_dict P thedict kw : emits P (merge_dict thedict kw).
Proof.
  unfold merge_dict. apply emits_bind; [|intros; apply emits_ret].
  apply emits_for_each. intros [key value]. simpl.
  apply emits_try.
  - apply emits_bind; [apply emits_getitem | intros; apply emits_update].
  - intros e handler He. destruct e; inversion He. apply emits_update_items.
Qed.

Lemma emits_nothing {A} (m : M A) w r w' :
  emits no_call m -> m w = (r, w') -> calls w' = calls w.
Proof.
  intros Hm E. destruct (Hm _ _ _ E) as (cs & -> & HF).
  destruct cs as [|c cs]; [now rewrite app_nil_r|].
  now apply Forall_cons in HF as [[] _].
Qed.

(** ** The store *)

Lemma store_lookup_new (h : store) (d : pydict) : (h ++ [d]) !! length h = Some d.
Proof. now apply list_lookup_middle. Qed.

Lemma store_insert_new (h : store) (d d' : pydict) :
  <[length h := d']> (h ++ [d]) = h ++ [d'].
Proof.
  rewrite <- (Nat.add_0_r (length h)). now rewrite insert_app_r.
Qed.

(** ** URLs *)

Lemma str_items_map segments : str_items (map DStr segments) = Some segments.
Proof.
  induction segments as [|s segments IH]; simpl; [reflexivity|].
  now rewrite IH.
Qed.

Lemma str_items_Some args segments :
  str_items args = Some segments -> args = map DStr segments.
Proof.
  revert segments. induction args as [|a args IH]; intros segments; simpl.
  - now intros [= <-].
  - destruct a; try discriminate.
    destruct (str_items args) as [ss|]; [|discriminate].
    intros [= <-]. simpl. now rewrite (IH ss).
Qed.

Lemma url_for_endpoint_strings self endpoint segments :
  url_for_endpoint self endpoint (map DStr segments) = Ok (url_of self (endpoint :: segments)).
Proof.
  unfold url_for_endpoint, join. simpl. now rewrite str_items_map.
Qed.

Lemma url_for_endpoint_not_strings self endpoint args :
  str_items args = None -> url_for_endpoint self endpoint args = Raise TypeError.
Proof.
  intros H. unfold url_for_endpoint, join. simpl. now rewrite H.
Qed.

(** ** The executor *)

Section ExecutorFacts.

Variable transport : list call -> call -> result Response.

Lemma executor_unfold m self endpoint args kwargs :
  executor transport m self endpoint args kwargs =
    (kwargs ← new_dict kwargs;
     url ← lift (url_for_endpoint self endpoint args);
     kwargs ← merge_dict kwargs [("headers", headers self)];
     request transport m url (timeout self) kwargs).
Proof. destruct m; reflexivity. Qed.

Lemma emits_request (P : call -> Prop) m url t kwargs :
  (forall c, request_line c = (m, url) -> P c) ->
  emits P (request transport m url t kwargs).
Proof.
  intros HP w r w' E. unfold request in E.
  destruct kwargs; try (inversion E; subst; exists []; now rewrite app_nil_r).
  destruct (heap w !! l); [|inversion E; subst; exists []; now rewrite app_nil_r].
  destruct (dict_get l0 "timeout"); inversion E; subst; simpl.
  - exists []. now rewrite app_nil_r.
  - eexists [_]. split; [reflexivity|]. repeat constructor. now apply HP.
Qed.

Lemma emits_executor (P : call -> Prop) m self endpoint args kwargs :
  (forall c, c_verb c = m -> P c) ->
  emits P (executor transport m self endpoint args kwargs).
Proof.
  intros HP. rewrite executor_unfold.
  apply emits_bind; [apply emits_new_dict|intros k].
  apply emits_bind; [apply emits_lift|intros url].
  apply emits_bind; [apply emits_merge_dict|intros k'].
  apply emits_request. intros c [= Hc _]. auto.
Qed.

(** A call whose path segments are strings and whose keywords name neither
    [headers] nor [timeout] is issued, with the headers of the strategy. *)
Lemma executor_issues m self endpoint segments kwargs w :
  dict_get kwargs "headers" = None ->
  dict_get kwargs "timeout" = None ->
  let kwargs' := kwargs ++ [("headers", headers self)] in
  let c := {| c_verb := m; c_url := url_of self (endpoint :: segments);
              c_timeout := timeout self; c_kwargs := kwargs';
              c_store := heap w ++ [kwargs'] |} in
  executor transport m self endpoint (map DStr segments) kwargs w =
    (transport (calls w) c,
     {| heap := heap w ++ [kwargs']; calls := calls w ++ [c] |}).
Proof.
  intros Hh Ht kwargs' c. subst c kwargs'. rewrite executor_unfold.
  rewrite run_bind. unfold new_dict at 1.
  rewrite run_bind, run_lift, url_for_endpoint_strings.
  rewrite run_bind. unfold merge_dict, for_each, merge_entry.
  rewrite !run_bind. unfold try_except.
  rewrite run_bind. unfold getitem. simpl heap.
  rewrite store_lookup_new, Hh.
  unfold update_items. simpl heap. rewrite store_lookup_new.
  rewrite run_ret. simpl calls.
  unfold dict_update. simpl fold_left. rewrite store_insert_new.
  rewrite (dict_set_fresh kwargs "headers" _ Hh).
  rewrite run_ret. unfold request. simpl heap. rewrite store_lookup_new.
  assert (dict_get (kwargs ++ [("headers", headers self)]) "timeout" = None) as ->.
  { rewrite <- (dict_set_fresh kwargs "headers" _ Hh).
    now rewrite dict_get_set. }
  reflexivity.
Qed.

Lemma executor_not_strings m self endpoint args kwargs w :
  str_items args = None ->
  executor transport m self endpoint args kwargs w =
    (Raise TypeError, {| heap := heap w ++ [kwargs]; calls := calls w |}).
Proof.
  intros H. rewrite executor_unfold.
  rewrite run_bind. unfold new_dict at 1.
  now rewrite run_bind, run_lift, url_for_endpoint_not_strings.
Qed.

(** A call that returned a response was issued. *)
Lemma executor_ok_inv m self endpoint args w r w' :
  executor transport m self endpoint args [] w = (Ok r, w') ->
  exists segments c,
    args = map DStr segments /\
    calls w' = calls w ++ [c] /\
    request_line c = (m, url_of self (endpoint :: segments)).
Proof.
  intros E. destruct (str_items args) as [segments|] eqn:Hs.
  - apply str_items_Some in Hs as ->.
    rewrite executor_issues in E by reflexivity.
    inversion E; subst. eexists _, _. split; [reflexivity|].
    split; reflexivity.
  - rewrite executor_not_strings in E by assumption. discriminate.
Qed.

End ExecutorFacts.

Ltac as_executor :=
  repeat first
    [ progress change (get ?t) with (executor t GET) in *
    | progress change (post ?t) with (executor t POST) in *
    | progress change (put ?t) with (executor t PUT) in *
    | progress change (delete ?t) with (executor t DELETE) in * ].

(** Steps of a run whose outcome is known. *)
Ltac run_known :=
  repeat first
    [ rewrite run_lift
    | rewrite run_ret
    | match goal with
      | H : ?m ?w = (Ok _, _) |- context [(?m ≫= _) ?w] => rewrite (run_bind_ok m _ w _ _ H)
      | H : ?m ?w = (Raise _, _) |- context [(?m ≫= _) ?w] => rewrite (run_bind_raise m _ w _ _ H)
      | H : ?r = _ |- context [(lift ?r ≫= _) _] => rewrite run_bind, run_lift, H
      end ].

(** ** The strategies *)

Section StrategyFacts.

Variable transport : list call -> call -> result Response.
Variable slugify : string -> string.
Variable json_dumps : pydict -> string.

Local Abbreviation only_get := (fun c : call => c_verb c = GET).

Lemma emits_get_json_or_raise self endpoint args kwargs :
  emits only_get (get_json_or_raise transport self endpoint args kwargs).
Proof.
  unfold get_json_or_raise. as_executor.
  apply emits_bind; [now apply emits_executor|intros r].
  apply emits_bind; intros; apply emits_lift.
Qed.

Lemma emits_bitbucket_username self : emits only_get (Bitbucket.username transport self).
Proof.
  apply emits_bind; [apply emits_get_json_or_raise|intros; apply emits_lift].
Qed.

Lemma emits_github_username self : emits only_get (GitHub.username transport self).
Proof.
  apply emits_bind; [apply emits_get_json_or_raise|intros; apply emits_lift].
Qed.

Lemma emits_project_details p self key :
  emits only_get (project_details (strategy_of transport slugify json_dumps p self) key).
Proof.
  destruct p; simpl.
  - apply emits_bind; [apply emits_bitbucket_username|intros u].
    apply (emits_executor transport only_get GET). auto.
  - apply emits_bind; [apply emits_github_username|intros u].
    apply (emits_executor transport only_get GET). auto.
  - apply (emits_executor transport only_get GET). auto.
Qed.

(** A user lookup that returned a name made one GET, of the [user] endpoint. *)
Lemma get_json_ok_inv self endpoint w j w' :
  get_json_or_raise transport self endpoint [] [] w = (Ok j, w') ->
  exists c, calls w' = calls w ++ [c] /\
            request_line c = (GET, url_of self [endpoint]).
Proof.
  unfold get_json_or_raise. intros E. rewrite run_bind in E.
  destruct (get transport self endpoint [] [] w) as [[r|e] w1] eqn:E1; [|discriminate].
  apply (executor_ok_inv transport GET) in E1 as (segments & c & Hs & Hc & Hl).
  destruct segments; [|discriminate].
  rewrite run_bind, run_lift in E.
  destruct (raise_for_status r); [|discriminate].
  rewrite run_lift in E. inversion E; subst. eauto.
Qed.

Lemma bitbucket_username_inv self w u w' :
  Bitbucket.username transport self w = (Ok u, w') ->
  exists c, calls w' = calls w ++ [c] /\
            request_line c = (GET, url_of self ["user"]).
Proof.
  unfold Bitbucket.username. intros E. rewrite run_bind in E.
  destruct (get_json_or_raise transport self "user" [] [] w) as [[j|e] w1] eqn:E1;
    [|discriminate].
  rewrite run_lift in E. inversion E; subst.
  now apply get_json_ok_inv in E1.
Qed.

Lemma github_username_inv self w u w' :
  GitHub.username transport self w = (Ok u, w') ->
  exists c, calls w' = calls w ++ [c] /\
            request_line c = (GET, url_of self ["user"]).
Proof.
  unfold GitHub.username. intros E. rewrite run_bind in E.
  destruct (get_json_or_raise transport self "user" [] [] w) as [[j|e] w1] eqn:E1;
    [|discriminate].
  rewrite run_lift in E. inversion E; subst.
  now apply get_json_ok_inv in E1.
Qed.

End StrategyFacts.

(** * The safe-delete protocol *)

Section SafeDelete.

Variable transport : list call -> call -> result Response.
Variable slugify : string -> string.
Variable json_dumps : pydict -> string.

Local Abbreviation strategy_for := (strategy_of transport slugify json_dumps).

(** C1.  For each of the three providers: when the verification fetch of
    [delete_project key slug] returns a response [r] that passes
    [raise_for_status] and whose decoded body has, under the identifying
    field of the provider ([name] for Bitbucket, [path] for GitHub and
    GitLab), a value different from [slug], then [delete_project] returns
    the synthetic response, in the world [w1] the fetch left: nothing is
    called after the fetch, and the fetch made GET calls only, so that no
    DELETE is issued.  The synthetic response has status 400 and decodes to
    the message "Slug does not match project. Deletion refused.". *)
Theorem delete_refused_on_mismatch p self key slug w r w1 j v :
  project_details (strategy_for p self) key w = (Ok r, w1) ->
  raise_for_status r = Ok tt ->
  json r = Ok j ->
  subscript j (identifying_field p) = Ok v ->
  v <> DStr slug ->
  delete_project (strategy_for p self) key slug w = (Ok HTTP400_DELETION_REFUSED, w1)
  /\ status_code HTTP400_DELETION_REFUSED = 400
  /\ json HTTP400_DELETION_REFUSED =
       Ok (DDict [("message", DStr "Slug does not match project. Deletion refused.")])
  /\ exists cs, calls w1 = calls w ++ cs /\ Forall (fun c => c_verb c = GET) cs.
Proof.
  intros Hfetch Hstatus Hjson Hfield Hne.
  apply eq_str_false in Hne.
  split; [|split; [reflexivity|split; [reflexivity|]]].
  - destruct p; simpl in *.
    + unfold Bitbucket.delete_project. run_known. now rewrite Hne.
    + unfold GitHub.delete_project. run_known. now rewrite Hne.
    + unfold GitLab.delete_project. run_known. now rewrite Hne.
  - exact (emits_project_details transport slugify json_dumps p self key _ _ _ Hfetch).
Qed.

(** C8, amended.  For each of the three providers: when the verification
    fetch of [delete_project key slug] returns a response with a status from
    400 to 599, [delete_project] raises the HTTP error of that status in the
    world the fetch left: it returns no response, the synthetic one included,
    and no DELETE is issued, the fetch having made GET calls only. *)
Theorem delete_raises_on_error_status p self key slug w r w1 :
  project_details (strategy_for p self) key w = (Ok r, w1) ->
  400 <= status_code r < 600 ->
  delete_project (strategy_for p self) key slug w = (Raise (HTTPError (status_code r)), w1)
  /\ exists cs, calls w1 = calls w ++ cs /\ Forall (fun c => c_verb c = GET) cs.
Proof.
  intros Hfetch Hstatus.
  assert (raise_for_status r = Raise (HTTPError (status_code r))) as Hraise.
  { unfold raise_for_status.
    destruct (Z.leb_spec 400 (status_code r)); [|lia].
    destruct (Z.ltb_spec (status_code r) 600); [reflexivity|lia]. }
  split.
  - destruct p; simpl in *.
    + unfold Bitbucket.delete_project. now run_known.
    + unfold GitHub.delete_project. now run_known.
    + unfold GitLab.delete_project. now run_known.
  - exact (emits_project_details transport slugify json_dumps p self key _ _ _ Hfetch).
Qed.

End SafeDelete.

Section SafeDeleteCalls.

Variable transport : list call -> call -> result Response.

Lemma bitbucket_project_details_inv self key w r w' :
  Bitbucket.project_details transport self key w = (Ok r, w') ->
  exists u,
    map request_line (calls w') = map request_line (calls w) ++
      [(GET, url_of self ["user"]); (GET, url_of self ["repositories"; u; key])].
Proof.
  unfold Bitbucket.project_details. intros E. rewrite run_bind in E.
  destruct (Bitbucket.username transport self w) as [[u|e] w1] eqn:E1; [|discriminate].
  apply bitbucket_username_inv in E1 as (c1 & Hc1 & Hl1).
  apply (executor_ok_inv transport GET) in E as (segments & c2 & Hs & Hc2 & Hl2).
  destruct segments as [|u' [|k' [|]]]; try discriminate.
  injection Hs as -> ->. exists u'.
  rewrite Hc2, Hc1, !map_app, <- app_assoc. simpl. now rewrite Hl1, Hl2.
Qed.

Lemma github_project_details_inv self key w r w' :
  GitHub.project_details transport self key w = (Ok r, w') ->
  exists u,
    map request_line (calls w') = map request_line (calls w) ++
      [(GET, url_of self ["user"]); (GET, url_of self ["repos"; u; key])].
Proof.
  unfold GitHub.project_details. intros E. rewrite run_bind in E.
  destruct (GitHub.username transport self w) as [[u|e] w1] eqn:E1; [|discriminate].
  apply github_username_inv in E1 as (c1 & Hc1 & Hl1).
  apply (executor_ok_inv transport GET) in E as (segments & c2 & Hs & Hc2 & Hl2).
  destruct segments as [|u' [|k' [|]]]; try discriminate.
  injection Hs as -> ->. exists u'.
  rewrite Hc2, Hc1, !map_app, <- app_assoc. simpl. now rewrite Hl1, Hl2.
Qed.

Lemma gitlab_project_details_inv self key w r w' :
  GitLab.project_details transport self key w = (Ok r, w') ->
  map request_line (calls w') = map request_line (calls w) ++
    [(GET, url_of self ["projects"; key])].
Proof.
  unfold GitLab.project_details. intros E.
  apply (executor_ok_inv transport GET) in E as (segments & c2 & Hs & Hc2 & Hl2).
  destruct segments as [|k' [|]]; try discriminate.
  injection Hs as ->.
  rewrite Hc2, !map_app. simpl. now rewrite Hl2.
Qed.

(** The calls of a DELETE of string segments, issued from [w]. *)
Lemma delete_calls self endpoint segments w :
  map request_line (calls (snd (delete transport self endpoint (map DStr segments) [] w))) =
    map request_line (calls w) ++ [(DELETE, url_of self (endpoint :: segments))].
Proof.
  as_executor. rewrite executor_issues by reflexivity. simpl.
  now rewrite map_app.
Qed.

(** C2.  When the identifying field of the fetched project is the string
    [slug], [delete_project key slug] issues exactly one DELETE, as its last
    call, to the path of the provider, and exactly one GET of the details of
    the project before it.
    - Bitbucket: DELETE [repositories/{username}/{slug}], after the GET of
      [repositories/{username}/{key}];
    - GitHub: DELETE [repos/{username}/{key}], after the GET of
      [repos/{username}/{key}];
    - GitLab: DELETE [projects/{key}], after the GET of [projects/{key}].
    The whole log is given: on Bitbucket and GitHub each use of the user
    name is a GET of [user] of its own, and [u] is the name the lookup
    before the DELETE returned. *)
Theorem delete_issued_on_match :
  (forall self key slug w r w1 j u w2,
      Bitbucket.project_details transport self key w = (Ok r, w1) ->
      raise_for_status r = Ok tt ->
      json r = Ok j ->
      subscript j "name" = Ok (DStr slug) ->
      Bitbucket.username transport self w1 = (Ok (DStr u), w2) ->
      exists u1,
        map request_line (calls (snd (Bitbucket.delete_project transport self key slug w))) =
          map request_line (calls w) ++
            [(GET, url_of self ["user"]);
             (GET, url_of self ["repositories"; u1; key]);
             (GET, url_of self ["user"]);
             (DELETE, url_of self ["repositories"; u; slug])])
  /\ (forall self key slug w r w1 j u w2,
      GitHub.project_details transport self key w = (Ok r, w1) ->
      raise_for_status r = Ok tt ->
      json r = Ok j ->
      subscript j "path" = Ok (DStr slug) ->
      GitHub.username transport self w1 = (Ok (DStr u), w2) ->
      exists u1,
        map request_line (calls (snd (GitHub.delete_project transport self key slug w))) =
          map request_line (calls w) ++
            [(GET, url_of self ["user"]);
             (GET, url_of self ["repos"; u1; key]);
             (GET, url_of self ["user"]);
             (DELETE, url_of self ["repos"; u; key])])
  /\ (forall self key slug w r w1 j,
      GitLab.project_details transport self key w = (Ok r, w1) ->
      raise_for_status r = Ok tt ->
      json r = Ok j ->
      subscript j "path" = Ok (DStr slug) ->
      map request_line (calls (snd (GitLab.delete_project transport self key slug w))) =
        map request_line (calls w) ++
          [(GET, url_of self ["projects"; key]);
           (DELETE, url_of self ["projects"; key])]).
Proof.
  split; [|split].
  - intros self key slug w r w1 j u w2 Hfetch Hstatus Hjson Hfield Huser.
    destruct (bitbucket_project_details_inv _ _ _ _ _ Hfetch) as (u1 & H1).
    destruct (bitbucket_username_inv _ _ _ _ _ Huser) as (c & Hc & Hl).
    exists u1. unfold Bitbucket.delete_project. run_known.
    rewrite eq_str_refl. run_known.
    rewrite (delete_calls self "repositories" [u; slug]).
    rewrite Hc, map_app, H1, <- !app_assoc. simpl. now rewrite Hl.
  - intros self key slug w r w1 j u w2 Hfetch Hstatus Hjson Hfield Huser.
    destruct (github_project_details_inv _ _ _ _ _ Hfetch) as (u1 & H1).
    destruct (github_username_inv _ _ _ _ _ Huser) as (c & Hc & Hl).
    exists u1. unfold GitHub.delete_project. run_known.
    rewrite eq_str_refl. run_known.
    rewrite (delete_calls self "repos" [u; key]).
    rewrite Hc, map_app, H1, <- !app_assoc. simpl. now rewrite Hl.
  - intros self key slug w r w1 j Hfetch Hstatus Hjson Hfield.
    pose proof (gitlab_project_details_inv _ _ _ _ _ Hfetch) as H1.
    unfold GitLab.delete_project. run_known.
    rewrite eq_str_refl.
    rewrite (delete_calls self "projects" [key]).
    now rewrite H1, <- !app_assoc.
Qed.

End SafeDeleteCalls.

(** * Deploy keys and updates on Bitbucket *)

Section BitbucketFacts.

Variable transport : list call -> call -> result Response.
Variable slugify : string -> string.

(** C7.  [add_deploy_key] of the Bitbucket strategy raises
    [NotImplementedError] for every argument and in every world, and leaves
    the world as it was: the log of HTTP calls gets no entry. *)
Theorem bitbucket_add_deploy_key_unsupported self project_id key_title ssh_key read_only w :
  add_deploy_key (Bitbucket.BitbucketStrategy transport slugify self)
      project_id key_title ssh_key read_only w =
    (Raise (NotImplementedError "Not available on Bitbucket, we're sorry!"), w)
  /\ calls (snd (add_deploy_key (Bitbucket.BitbucketStrategy transport slugify self)
                   project_id key_title ssh_key read_only w)) = calls w.
Proof. split; reflexivity. Qed.

(** A user lookup on an endpoint that answers [ru]. *)
Lemma get_json_answered self endpoint ru j w :
  answers transport GET (url_of self [endpoint]) ru ->
  raise_for_status ru = Ok tt ->
  json ru = Ok j ->
  exists c,
    get_json_or_raise transport self endpoint [] [] w =
      (Ok j, {| heap := heap w ++ [[("headers", headers self)]];
                calls := calls w ++ [c] |})
    /\ request_line c = (GET, url_of self [endpoint]).
Proof.
  intros Ha Hs Hj. unfold get_json_or_raise. as_executor.
  rewrite run_bind.
  pose proof (executor_issues transport GET self endpoint [] [] w eq_refl eq_refl) as E.
  cbn [map app] in E. rewrite E. rewrite Ha by reflexivity.
  rewrite run_bind, run_lift, Hs, run_lift, Hj.
  eexists. split; reflexivity.
Qed.

Lemma bitbucket_username_answered self ru j u w :
  answers transport GET (url_of self ["user"]) ru ->
  raise_for_status ru = Ok tt ->
  json ru = Ok j ->
  subscript j "username" = Ok u ->
  exists c,
    Bitbucket.username transport self w =
      (Ok u, {| heap := heap w ++ [[("headers", headers self)]];
                calls := calls w ++ [c] |})
    /\ request_line c = (GET, url_of self ["user"]).
Proof.
  intros Ha Hs Hj Hu. unfold Bitbucket.username.
  destruct (get_json_answered self "user" ru j w Ha Hs Hj) as (c & E & Hc).
  exists c. split; [|assumption].
  now rewrite (run_bind_ok _ _ _ _ _ E), run_lift, Hu.
Qed.

Lemma emits_bitbucket_update_no_slug self key kwargs :
  emits (fun c => c_verb c = GET)
    (Bitbucket.update_project transport self key None kwargs).
Proof.
  unfold Bitbucket.update_project.
  apply emits_bind; [apply emits_new_dict|intros mappings].
  apply emits_bind; [apply emits_update_items|intros _].
  apply emits_bind; [apply emits_bitbucket_username|intros u].
  apply emits_same. intros w r w' E. as_executor.
  rewrite executor_not_strings in E by (destruct u; reflexivity).
  now inversion E.
Qed.

Lemma bitbucket_update_run_no_slug self key kwargs w ru j u :
  answers transport GET (url_of self ["user"]) ru ->
  raise_for_status ru = Ok tt ->
  json ru = Ok j ->
  subscript j "username" = Ok u ->
  exists w' c,
    Bitbucket.update_project transport self key None kwargs w = (Raise TypeError, w')
    /\ calls w' = calls w ++ [c]
    /\ request_line c = (GET, url_of self ["user"]).
Proof.
  intros Ha Hs Hj Hu. unfold Bitbucket.update_project.
  rewrite run_bind. unfold new_dict at 1.
  rewrite run_bind. unfold update_items at 1. simpl heap.
  rewrite store_lookup_new. rewrite run_bind.
  match goal with |- context [Bitbucket.username transport self ?w0] =>
    destruct (bitbucket_username_answered self ru j u w0 Ha Hs Hj Hu) as (c & E & Hc);
    rewrite E end.
  as_executor.
  rewrite executor_not_strings by (destruct u; reflexivity).
  eexists _, c. split; [reflexivity|]. split; [reflexivity|assumption].
Qed.

(** C9.  [update_project key] of the Bitbucket strategy, with no slug:
    - whatever the environment answers, every call it makes is a GET, so no
      PUT is issued, and it returns no response;
    - when the [user] endpoint answers the lookup of the user name, it
      raises [TypeError], having made that one GET and no other call: the
      error is raised while the URL is joined, [None] being one of the
      segments. *)
Theorem bitbucket_update_without_slug self key kwargs w :
  (exists cs,
     calls (snd (Bitbucket.update_project transport self key None kwargs w)) =
       calls w ++ cs
     /\ Forall (fun c => c_verb c = GET) cs)
  /\ (forall r, fst (Bitbucket.update_project transport self key None kwargs w) <> Ok r)
  /\ (forall ru j u,
        answers transport GET (url_of self ["user"]) ru ->
        raise_for_status ru = Ok tt ->
        json ru = Ok j ->
        subscript j "username" = Ok u ->
        fst (Bitbucket.update_project transport self key None kwargs w) = Raise TypeError
        /\ map request_line
             (calls (snd (Bitbucket.update_project transport self key None kwargs w))) =
           map request_line (calls w) ++ [(GET, url_of self ["user"])]).
Proof.
  split; [|split].
  - destruct (Bitbucket.update_project transport self key None kwargs w) as [r w'] eqn:E.
    exact (emits_bitbucket_update_no_slug self key kwargs _ _ _ E).
  - intros r. unfold Bitbucket.update_project.
    rewrite run_bind. unfold new_dict at 1.
    rewrite run_bind. unfold update_items at 1. simpl heap.
    rewrite store_lookup_new. rewrite run_bind.
    match goal with |- context [Bitbucket.username transport self ?w0] =>
      destruct (Bitbucket.username transport self w0) as [[u|e] w1] end;
      [|discriminate].
    as_executor.
    rewrite executor_not_strings by (destruct u; reflexivity). discriminate.
  - intros ru j u Ha Hs Hj Hu.
    destruct (bitbucket_update_run_no_slug self key kwargs w ru j u Ha Hs Hj Hu)
      as (w' & c & E & Hw & Hc).
    rewrite E. cbn [fst snd]. split; [reflexivity|].
    rewrite Hw, map_app. cbn [map]. now rewrite Hc.
Qed.

End BitbucketFacts.

(** * Creating a project *)

Section Creation.

Variable transport : list call -> call -> result Response.
Variable slugify : string -> string.

Lemma payload_of_new_dict (h : store) (d kwargs : pydict) keyword c :
  c_kwargs c = (keyword, VRef (length h)) :: kwargs ->
  c_store c !! length h = Some d ->
  payload c keyword = Some d.
Proof.
  intros Hk Hs. unfold payload. rewrite Hk. simpl.
  now rewrite String.eqb_refl.
Qed.

(** The slug segment Bitbucket uses. *)
Lemma bitbucket_slug_segment slug name :
  (if truthy slug then opt_data slug else DStr (slugify name)) =
  DStr (if truthy slug then default "" slug else slugify name).
Proof. now destruct slug as [[|a s]|]. Qed.

(** On Bitbucket the user is looked up, then the project is posted. *)
Lemma bitbucket_create_run self name slug kwargs w ru j u :
  answers transport GET (url_of self ["user"]) ru ->
  raise_for_status ru = Ok tt ->
  json ru = Ok j ->
  subscript j "username" = Ok (DStr u) ->
  exists cu c,
    calls (snd (Bitbucket.create_project transport slugify self name slug kwargs w)) =
      calls w ++ [cu; c]
    /\ request_line cu = (GET, url_of self ["user"])
    /\ request_line c =
         (POST, url_of self ["repositories"; u;
                             if truthy slug then default "" slug else slugify name])
    /\ payload c "json" =
         Some (dict_update
                 [("has_issues", VBool false); ("has_wiki", VBool false);
                  ("is_private", VBool true); ("name", VStr name);
                  ("scm", VStr "git")] kwargs).
Proof.
  intros Ha Hs Hj Hu. unfold Bitbucket.create_project.
  rewrite run_bind. unfold new_dict at 1.
  rewrite run_bind. unfold update_items at 1. simpl heap.
  rewrite store_lookup_new, store_insert_new. rewrite run_bind.
  match goal with |- context [Bitbucket.username transport self ?w0] =>
    destruct (bitbucket_username_answered transport self ru j (DStr u) w0 Ha Hs Hj Hu)
      as (cu & E & Hcu);
    rewrite E end.
  rewrite bitbucket_slug_segment. as_executor.
  match goal with |- context [executor transport POST self ?e [DStr ?a; DStr ?b] ?k ?w0] =>
    pose proof (executor_issues transport POST self e [a; b] k w0 eq_refl eq_refl) as E';
    cbn [map] in E'; rewrite E'
  end.
  cbn [snd calls heap]. eexists cu, _.
  split; [now rewrite <- app_assoc|].
  split; [assumption|]. split; [reflexivity|].
  eapply payload_of_new_dict; [reflexivity|]. cbn [c_store].
  rewrite <- !app_assoc. apply list_lookup_middle. reflexivity.
Qed.

(** On GitHub and GitLab the project is posted at once. *)
Lemma github_create_run self name slug kwargs w :
  exists c,
    calls (snd (GitHub.create_project transport slugify self name slug kwargs w)) =
      calls w ++ [c]
    /\ request_line c = (POST, url_of self ["user"; "repos"])
    /\ payload c "json" =
         Some (dict_update
                 [("has_issues", VBool false); ("has_wiki", VBool false);
                  ("name", if truthy slug then opt_val slug else VStr (slugify name));
                  ("private", VBool false)] kwargs).
Proof.
  unfold GitHub.create_project.
  rewrite run_bind. unfold new_dict at 1.
  rewrite run_bind. unfold update_items at 1. simpl heap.
  rewrite store_lookup_new, store_insert_new. as_executor.
  match goal with |- context [executor transport POST self ?e [DStr ?a] ?k ?w0] =>
    pose proof (executor_issues transport POST self e [a] k w0 eq_refl eq_refl) as E';
    cbn [map] in E'; rewrite E'
  end.
  cbn [snd calls heap]. eexists.
  split; [reflexivity|]. split; [reflexivity|].
  eapply payload_of_new_dict; [reflexivity|]. cbn [c_store].
  rewrite <- !app_assoc. apply list_lookup_middle. reflexivity.
Qed.

Lemma gitlab_create_run self name slug kwargs w :
  exists c,
    calls (snd (GitLab.create_project transport self name slug kwargs w)) =
      calls w ++ [c]
    /\ request_line c = (POST, url_of self ["projects"])
    /\ payload c "params" =
         Some (dict_update
                 [("builds_enabled", VBool true); ("issues_enabled", VBool false);
                  ("merge_requests_enabled", VBool true); ("name", VStr name);
                  ("path", opt_val slug); ("public", VBool false);
                  ("public_builds", VBool false); ("snippets_enabled", VBool false);
                  ("wiki_enabled", VBool false)] kwargs).
Proof.
  unfold GitLab.create_project.
  rewrite run_bind. unfold new_dict at 1.
  rewrite run_bind. unfold update_items at 1. simpl heap.
  rewrite store_lookup_new, store_insert_new. as_executor.
  match goal with |- context [executor transport POST self ?e [] ?k ?w0] =>
    pose proof (executor_issues transport POST self e [] k w0 eq_refl eq_refl) as E';
    cbn [map] in E'; rewrite E'
  end.
  cbn [snd calls heap]. eexists.
  split; [reflexivity|]. split; [reflexivity|].
  eapply payload_of_new_dict; [reflexivity|]. cbn [c_store].
  rewrite <- !app_assoc. apply list_lookup_middle. reflexivity.
Qed.

Lemma payload_field_default c keyword field (defaults kwargs : pydict) :
  payload c keyword = Some (dict_update defaults kwargs) ->
  dict_get kwargs field = None ->
  payload_field c keyword field = dict_get defaults field.
Proof.
  intros Hp Hk. unfold payload_field. rewrite Hp.
  now apply dict_get_update_other.
Qed.

End Creation.

Section CreationDefaults.

Variable transport : list call -> call -> result Response.
Variable slugify : string -> string.

(** C3, amended.  [create_project name] called with no visibility field
    among its keyword arguments posts a payload whose visibility field is the
    default of the provider: [is_private] is true on Bitbucket and [public]
    is false on GitLab, and on GitHub [private] is false.  (On Bitbucket the
    project is posted once the [user] endpoint answered the lookup of the
    user name.) *)
Theorem create_project_default_visibility name slug kwargs :
  (forall self w ru j u,
      dict_get kwargs "is_private" = None ->
      answers transport GET (url_of self ["user"]) ru ->
      raise_for_status ru = Ok tt ->
      json ru = Ok j ->
      subscript j "username" = Ok (DStr u) ->
      exists cu c,
        calls (snd (Bitbucket.create_project transport slugify self name slug kwargs w)) =
          calls w ++ [cu; c]
        /\ c_verb cu = GET /\ c_verb c = POST
        /\ payload_field c "json" "is_private" = Some (VBool true))
  /\ (forall self w,
      dict_get kwargs "private" = None ->
      exists c,
        calls (snd (GitHub.create_project transport slugify self name slug kwargs w)) =
          calls w ++ [c]
        /\ c_verb c = POST
        /\ payload_field c "json" "private" = Some (VBool false))
  /\ (forall self w,
      dict_get kwargs "public" = None ->
      exists c,
        calls (snd (GitLab.create_project transport self name slug kwargs w)) =
          calls w ++ [c]
        /\ c_verb c = POST
        /\ payload_field c "params" "public" = Some (VBool false)).
Proof.
  split; [|split].
  - intros self w ru j u Hk Ha Hs Hj Hu.
    destruct (bitbucket_create_run transport slugify self name slug kwargs w ru j u
                Ha Hs Hj Hu) as (cu & c & Hc & Hlu & Hl & Hp).
    exists cu, c. split; [assumption|].
    split; [now injection Hlu|]. split; [now injection Hl|].
    now rewrite (payload_field_default _ _ _ _ _ Hp Hk).
  - intros self w Hk.
    destruct (github_create_run transport slugify self name slug kwargs w)
      as (c & Hc & Hl & Hp).
    exists c. split; [assumption|]. split; [now injection Hl|].
    now rewrite (payload_field_default _ _ _ _ _ Hp Hk).
  - intros self w Hk.
    destruct (gitlab_create_run transport self name slug kwargs w)
      as (c & Hc & Hl & Hp).
    exists c. split; [assumption|]. split; [now injection Hl|].
    now rewrite (payload_field_default _ _ _ _ _ Hp Hk).
Qed.

(** C4, amended.  [create_project name] called with no slug ([None], or the
    empty string):
    - Bitbucket posts to [repositories/{username}/{slugify(name)}];
    - GitHub posts a payload whose [name] is [slugify(name)];
    - GitLab posts a payload whose [path] is the slug as it was given
      ([None] when it was left out), unless [path] is among the keyword
      arguments: no slug is derived from the name. *)
Theorem create_project_without_slug name slug kwargs :
  truthy slug = false ->
  (forall self w ru j u,
      answers transport GET (url_of self ["user"]) ru ->
      raise_for_status ru = Ok tt ->
      json ru = Ok j ->
      subscript j "username" = Ok (DStr u) ->
      exists cu c,
        calls (snd (Bitbucket.create_project transport slugify self name slug kwargs w)) =
          calls w ++ [cu; c]
        /\ request_line c = (POST, url_of self ["repositories"; u; slugify name]))
  /\ (forall self w,
      dict_get kwargs "name" = None ->
      exists c,
        calls (snd (GitHub.create_project transport slugify self name slug kwargs w)) =
          calls w ++ [c]
        /\ c_verb c = POST
        /\ payload_field c "json" "name" = Some (VStr (slugify name)))
  /\ (forall self w,
      dict_get kwargs "path" = None ->
      exists c,
        calls (snd (GitLab.create_project transport self name slug kwargs w)) =
          calls w ++ [c]
        /\ c_verb c = POST
        /\ payload_field c "params" "path" = Some (opt_val slug)
        /\ (slug = None -> payload_field c "params" "path" = Some VNone)).
Proof.
  intros Hslug. split; [|split].
  - intros self w ru j u Ha Hs Hj Hu.
    destruct (bitbucket_create_run transport slugify self name slug kwargs w ru j u
                Ha Hs Hj Hu) as (cu & c & Hc & Hlu & Hl & Hp).
    rewrite Hslug in Hl. eauto.
  - intros self w Hk.
    destruct (github_create_run transport slugify self name slug kwargs w)
      as (c & Hc & Hl & Hp).
    rewrite Hslug in Hp.
    exists c. split; [assumption|]. split; [now injection Hl|].
    now rewrite (payload_field_default _ _ _ _ _ Hp Hk).
  - intros self w Hk.
    destruct (gitlab_create_run transport self name slug kwargs w)
      as (c & Hc & Hl & Hp).
    exists c. split; [assumption|]. split; [now injection Hl|].
    assert (payload_field c "params" "path" = Some (opt_val slug)) as Hpath
      by now rewrite (payload_field_default _ _ _ _ _ Hp Hk).
    split; [assumption|]. intros ->. assumption.
Qed.

End CreationDefaults.

(** * Merging dictionaries *)

Lemma update_items_length target items w r w' :
  update_items target items w = (r, w') -> length (heap w') = length (heap w).
Proof.
  unfold update_items. intros E.
  destruct target; try (now inversion E).
  destruct (heap w !! l); inversion E; subst; simpl; [|reflexivity].
  apply length_insert.
Qed.

Lemma update_length target other w r w' :
  update target other w = (r, w') -> length (heap w') = length (heap w).
Proof.
  unfold update. intros E.
  destruct target; try (now inversion E).
  destruct other; try (now inversion E).
  - destruct s; now inversion E.
  - destruct (heap w !! l0); [|now inversion E].
    now apply update_items_length in E.
Qed.

Lemma merge_entry_length thedict kv w r w' :
  merge_entry thedict kv w = (r, w') -> length (heap w') = length (heap w).
Proof.
  destruct kv as [key value]. unfold merge_entry, try_except.
  rewrite run_bind. unfold getitem.
  destruct thedict; try (intros E; now inversion E).
  destruct (heap w !! l) as [d|] eqn:El; [|intros E; now inversion E].
  destruct (dict_get d key) as [x|].
  - destruct (update x value w) as [[u|e] w1] eqn:E1; intros E.
    + inversion E; subst. now apply update_length in E1.
    + apply update_length in E1. destruct e; inversion E; subst; try assumption.
      apply update_items_length in E. congruence.
  - intros E. now apply update_items_length in E.
Qed.

Lemma for_each_merge_length thedict kw w r w' :
  for_each (merge_entry thedict) kw w = (r, w') -> length (heap w') = length (heap w).
Proof.
  revert w. induction kw as [|kv kw IH]; intros w; simpl.
  - intros E. now inversion E.
  - rewrite run_bind.
    destruct (merge_entry thedict kv w) as [[u|e] w1] eqn:E1; intros E.
    + apply merge_entry_length in E1. apply IH in E. congruence.
    + inversion E; subst. now apply merge_entry_length in E1.
Qed.

(** [merge_dict] returns the object it was given, and allocates nothing. *)
Lemma merge_dict_same_object thedict kw w v w' :
  merge_dict thedict kw w = (Ok v, w') ->
  v = thedict /\ length (heap w') = length (heap w) /\ calls w' = calls w.
Proof.
  intros E. pose proof (emits_nothing _ _ _ _ (emits_merge_dict no_call thedict kw) E) as Hc.
  unfold merge_dict in E. rewrite run_bind in E.
  destruct (for_each (merge_entry thedict) kw w) as [[u|e] w1] eqn:E1; [|discriminate].
  inversion E; subst. apply for_each_merge_length in E1. auto.
Qed.

(** C5.  [merge_dict thedict key=value] on a dictionary [thedict] with
    items [d]:
    - with no entry under [key], the entry [key: value] is added to
      [thedict], after its other entries;
    - with a dictionary [x] under [key] and a dictionary for [value], the
      items of [value] are merged into [x], in place ([thedict] keeps its
      entries);
    - with anything else than a dictionary under [key], the error of a value
      of the wrong type is raised (Python's [AttributeError]: the value has no
      [update]) and nothing is changed.
    In the first two cases [thedict] itself is returned. *)
Theorem merge_dict_cases t d key value w :
  heap w !! t = Some d ->
  (dict_get d key = None ->
     merge_dict (VRef t) [(key, value)] w =
       (Ok (VRef t), {| heap := <[t := d ++ [(key, value)]]> (heap w); calls := calls w |}))
  /\ (forall x dx n dn,
        dict_get d key = Some (VRef x) ->
        heap w !! x = Some dx ->
        value = VRef n ->
        heap w !! n = Some dn ->
        merge_dict (VRef t) [(key, value)] w =
          (Ok (VRef t), {| heap := <[x := dict_update dx dn]> (heap w); calls := calls w |}))
  /\ (forall v,
        dict_get d key = Some v ->
        (forall x, v <> VRef x) ->
        merge_dict (VRef t) [(key, value)] w = (Raise AttributeError, w)).
Proof.
  intros Ht. unfold merge_dict, for_each, merge_entry, try_except.
  split; [|split].
  - intros Hk. rewrite !run_bind. unfold getitem, update_items.
    rewrite Ht, Hk. rewrite Ht. rewrite run_ret.
    unfold dict_update. simpl fold_left.
    now rewrite (dict_set_fresh d key value Hk).
  - intros x dx n dn Hk Hx -> Hn. rewrite !run_bind. unfold getitem.
    rewrite Ht, Hk. unfold update. rewrite Hn. unfold update_items. rewrite Hx.
    reflexivity.
  - intros v Hk Hv. rewrite !run_bind. unfold getitem.
    rewrite Ht, Hk. destruct v; try reflexivity.
    now destruct (Hv l).
Qed.

(** * The headers of a request *)

Section Headers.

Variable transport : list call -> call -> result Response.

Lemma request_heap m url t kwargs w :
  heap (snd (request transport m url t kwargs w)) = heap w.
Proof.
  unfold request. destruct kwargs; try reflexivity.
  destruct (heap w !! l); [|reflexivity].
  now destruct (dict_get l0 "timeout").
Qed.

(** A call given a [headers] dictionary merges the headers of the strategy
    into that dictionary. *)
Lemma executor_merges_headers m self endpoint segments kwargs w h d f fixed :
  dict_get kwargs "headers" = Some (VRef h) ->
  heap w !! h = Some d ->
  headers self = VRef f ->
  heap w !! f = Some fixed ->
  heap (snd (executor transport m self endpoint (map DStr segments) kwargs w)) !! h =
    Some (dict_update d fixed).
Proof.
  intros Hk Hh Hf Hfixed.
  pose proof (lookup_lt_Some _ _ _ Hh) as Hlt.
  rewrite executor_unfold.
  rewrite run_bind. unfold new_dict at 1.
  rewrite run_bind, run_lift, url_for_endpoint_strings.
  rewrite run_bind. unfold merge_dict, for_each, merge_entry.
  rewrite !run_bind. unfold try_except.
  rewrite run_bind. unfold getitem. simpl heap.
  rewrite store_lookup_new, Hk, Hf. unfold update. simpl heap.
  rewrite (lookup_app_l (heap w) _ f) by (eapply lookup_lt_Some; eassumption).
  rewrite Hfixed.
  rewrite (lookup_app_l (heap w) _ h) by assumption.
  rewrite Hh, !run_ret, request_heap. simpl heap.
  apply list_lookup_insert_eq. rewrite length_app. simpl. lia.
Qed.

(** The constructor puts the bearer token among the headers. *)
Lemma init_sets_authorization base oauth_token hdrs t w self w' :
  ServiceAPIStrategy_init base oauth_token hdrs t w = (Ok self, w') ->
  exists f fixed,
    headers self = VRef f /\ heap w' !! f = Some fixed /\
    dict_get fixed "Authorization" = Some (VStr ("Bearer " +:+ oauth_token)).
Proof.
  unfold ServiceAPIStrategy_init. intros E. rewrite run_bind in E.
  destruct hdrs; try (rewrite run_ret, run_bind in E; simpl in E; discriminate).
  - unfold new_dict in E. rewrite run_bind in E.
    unfold update_items in E. simpl heap in E.
    rewrite store_lookup_new, store_insert_new, run_ret in E.
    inversion E; subst. simpl. eexists _, _. split; [reflexivity|].
    split; [apply store_lookup_new|]. reflexivity.
  - rewrite run_ret, run_bind in E. unfold update_items in E.
    destruct (heap w !! l) as [d|] eqn:El; [|discriminate].
    rewrite run_ret in E. inversion E; subst. simpl.
    eexists _, _. split; [reflexivity|].
    split; [apply list_lookup_insert_eq; eapply lookup_lt_Some; eassumption|].
    unfold dict_update. simpl fold_left. now rewrite dict_get_set.
Qed.

(** C10.  [merge_dict] returns the object it was given, having made its
    changes in the store without allocating.  A [headers] dictionary [h]
    passed to [get], [post], [put] or [delete] with string path segments is
    therefore changed in place: after the call it holds its items updated
    with the headers of the strategy, whose entries replace those of the
    caller under the same key; and the headers of a strategy hold the
    bearer token under [Authorization] since its constructor. *)
Theorem caller_headers_mutated :
  (forall thedict kw w v w',
      merge_dict thedict kw w = (Ok v, w') ->
      v = thedict /\ length (heap w') = length (heap w) /\ calls w' = calls w)
  /\ (forall m self endpoint segments kwargs w h d f fixed,
      dict_get kwargs "headers" = Some (VRef h) ->
      heap w !! h = Some d ->
      headers self = VRef f ->
      heap w !! f = Some fixed ->
      NoDup fixed.*1 ->
      exists d',
        heap (snd (executor transport m self endpoint (map DStr segments) kwargs w)) !! h
          = Some d'
        /\ d' = dict_update d fixed
        /\ (forall k v, dict_get fixed k = Some v -> dict_get d' k = Some v)
        /\ (forall k, dict_get fixed k = None -> dict_get d' k = dict_get d k))
  /\ (forall base oauth_token hdrs t w self w',
      ServiceAPIStrategy_init base oauth_token hdrs t w = (Ok self, w') ->
      exists f fixed,
        headers self = VRef f /\ heap w' !! f = Some fixed /\
        dict_get fixed "Authorization" = Some (VStr ("Bearer " +:+ oauth_token))).
Proof.
  split; [exact merge_dict_same_object|]. split; [|exact init_sets_authorization].
  intros m self endpoint segments kwargs w h d f fixed Hk Hh Hf Hfixed Hnd.
  exists (dict_update d fixed).
  split; [now apply executor_merges_headers with (f := f)|].
  split; [reflexivity|].
  split; intros k; [intros v|]; intros Hfk; now rewrite dict_get_update, Hfk.
Qed.

End Headers.

(** * The facade *)

Ltac facade_steps :=
  unfold ServiceAPI.create_project, ServiceAPI.update_project,
    ServiceAPI.delete_project, ServiceAPI.list_projects,
    ServiceAPI.project_details, ServiceAPI.add_deploy_key;
  rewrite run_bind; unfold self_strategy at 1; cbn [fst snd];
  rewrite run_bind; unfold in_world at 1; cbn [fst snd].

(** X21.  An error of the strategy passes through the facade, whose slot
    keeps its value: there is no response to decode. *)
Lemma facade_propagates_strategy_error o api w e w1 :
  strategy_run (strategy api) o w = (Raise e, w1) ->
  facade_run o (api, w) = (Raise e, (api, w1)).
Proof.
  intros Hrun. destruct o; simpl in Hrun; simpl facade_run;
    facade_steps; now rewrite Hrun.
Qed.

(** X22.  A body that does not decode raises [ValueError] whatever the
    status, an error status included, and the slot keeps its value. *)
Lemma facade_decode_error o api w r w1 :
  strategy_run (strategy api) o w = (Ok r, w1) ->
  content r = None ->
  facade_run o (api, w) = (Raise ValueError, (api, w1)).
Proof.
  intros Hrun Hc. destruct o; simpl in Hrun; simpl facade_run;
    facade_steps; rewrite Hrun; rewrite run_bind, run_lift;
    unfold json; now rewrite Hc.
Qed.

(** C6.  Each of the six operations of the facade, when the strategy
    returns a response [r] whose body decodes to [j], stores [j] in the
    response slot and then checks the status: the outcome is that of
    [raise_for_status r], so with a status from 400 to 599 the operation
    raises the HTTP error, and the slot holds [j] all the same. *)
Theorem facade_decodes_before_raising o api w r w1 j :
  strategy_run (strategy api) o w = (Ok r, w1) ->
  json r = Ok j ->
  facade_run o (api, w) =
    (raise_for_status r, ({| strategy := strategy api; response := j |}, w1))
  /\ response (fst (snd (facade_run o (api, w)))) = j
  /\ (400 <= status_code r < 600 ->
      fst (facade_run o (api, w)) = Raise (HTTPError (status_code r))).
Proof.
  intros Hrun Hjson.
  assert (facade_run o (api, w) =
            (raise_for_status r, ({| strategy := strategy api; response := j |}, w1))) as E.
  { destruct o; simpl in Hrun; simpl facade_run;
      facade_steps; rewrite Hrun;
      rewrite run_bind, run_lift, Hjson;
      rewrite run_bind; unfold set_response at 1; cbn [fst snd];
      now rewrite run_lift. }
  rewrite E. split; [reflexivity|]. split; [reflexivity|].
  intros Hstatus. cbn [fst]. unfold raise_for_status.
  destruct (Z.leb_spec 400 (status_code r)); [|lia].
  destruct (Z.ltb_spec (status_code r) 600); [reflexivity|lia].
Qed.

(** * The properties on sample environments *)

Lemma sample_answers_bitbucket_user status :
  answers (Sample.provider_with status) GET (url_of Sample.bitbucket_self ["user"])
    (Sample.ok Sample.user).
Proof.
  intros history c [= Hv Hu]. unfold Sample.provider_with. now rewrite Hv, Hu.
Qed.

(** C1 on the three providers: the project [123] is [demo], not [wrong]. *)
Lemma delete_refused_on_mismatch_witness :
  delete_project (Sample.strategy_for 200 bitbucket) "123" "wrong" Sample.start =
    (Ok HTTP400_DELETION_REFUSED,
     snd (project_details (Sample.strategy_for 200 bitbucket) "123" Sample.start))
  /\ delete_project (Sample.strategy_for 200 github) "123" "wrong" Sample.start =
    (Ok HTTP400_DELETION_REFUSED,
     snd (project_details (Sample.strategy_for 200 github) "123" Sample.start))
  /\ delete_project (Sample.strategy_for 200 gitlab) "123" "wrong" Sample.start =
    (Ok HTTP400_DELETION_REFUSED,
     snd (project_details (Sample.strategy_for 200 gitlab) "123" Sample.start)).
Proof.
  split; [|split].
  - apply (delete_refused_on_mismatch (Sample.provider_with 200) Sample.slugify
             Sample.json_dumps bitbucket Sample.bitbucket_self "123" "wrong"
             Sample.start (Sample.answer 200 Sample.demo) _ Sample.demo (DStr "demo"));
      [vm_compute; reflexivity|reflexivity|reflexivity|reflexivity|discriminate].
  - apply (delete_refused_on_mismatch (Sample.provider_with 200) Sample.slugify
             Sample.json_dumps github Sample.github_self "123" "wrong"
             Sample.start (Sample.answer 200 Sample.demo) _ Sample.demo (DStr "demo"));
      [vm_compute; reflexivity|reflexivity|reflexivity|reflexivity|discriminate].
  - apply (delete_refused_on_mismatch (Sample.provider_with 200) Sample.slugify
             Sample.json_dumps gitlab Sample.gitlab_self "123" "wrong"
             Sample.start (Sample.answer 200 Sample.demo) _ Sample.demo (DStr "demo"));
      [vm_compute; reflexivity|reflexivity|reflexivity|reflexivity|discriminate].
Defined.

(** C2 on the three providers: the project [123] is [demo]. *)
Lemma delete_issued_on_match_witness :
  (exists u1,
     map request_line
       (calls (snd (Bitbucket.delete_project Sample.transport Sample.bitbucket_self
                      "123" "demo" Sample.start))) =
     map request_line (calls Sample.start) ++
       [(GET, url_of Sample.bitbucket_self ["user"]);
        (GET, url_of Sample.bitbucket_self ["repositories"; u1; "123"]);
        (GET, url_of Sample.bitbucket_self ["user"]);
        (DELETE, url_of Sample.bitbucket_self ["repositories"; "alice"; "demo"])])
  /\ (exists u1,
     map request_line
       (calls (snd (GitHub.delete_project Sample.transport Sample.github_self
                      "123" "demo" Sample.start))) =
     map request_line (calls Sample.start) ++
       [(GET, url_of Sample.github_self ["user"]);
        (GET, url_of Sample.github_self ["repos"; u1; "123"]);
        (GET, url_of Sample.github_self ["user"]);
        (DELETE, url_of Sample.github_self ["repos"; "alice"; "123"])])
  /\ map request_line
       (calls (snd (GitLab.delete_project Sample.transport Sample.gitlab_self
                      "123" "demo" Sample.start))) =
     map request_line (calls Sample.start) ++
       [(GET, url_of Sample.gitlab_self ["projects"; "123"]);
        (DELETE, url_of Sample.gitlab_self ["projects"; "123"])].
Proof.
  destruct (delete_issued_on_match Sample.transport) as (Hbb & Hgh & Hgl).
  split; [|split].
  - apply (Hbb Sample.bitbucket_self "123" "demo" Sample.start
             (Sample.answer 200 Sample.demo)
             (snd (Bitbucket.project_details Sample.transport Sample.bitbucket_self
                     "123" Sample.start))
             Sample.demo "alice"
             (snd (Bitbucket.username Sample.transport Sample.bitbucket_self
                     (snd (Bitbucket.project_details Sample.transport
                             Sample.bitbucket_self "123" Sample.start)))));
      vm_compute; reflexivity.
  - apply (Hgh Sample.github_self "123" "demo" Sample.start
             (Sample.answer 200 Sample.demo)
             (snd (GitHub.project_details Sample.transport Sample.github_self
                     "123" Sample.start))
             Sample.demo "alice"
             (snd (GitHub.username Sample.transport Sample.github_self
                     (snd (GitHub.project_details Sample.transport
                             Sample.github_self "123" Sample.start)))));
      vm_compute; reflexivity.
  - apply (Hgl Sample.gitlab_self "123" "demo" Sample.start
             (Sample.answer 200 Sample.demo)
             (snd (GitLab.project_details Sample.transport Sample.gitlab_self
                     "123" Sample.start))
             Sample.demo);
      vm_compute; reflexivity.
Defined.

(** C8 as it is stated fails on a status that is neither 2xx nor an error:
    with 300 for the details of [123], a body that decodes and the matching
    slug, [delete_project] on GitLab raises nothing and issues the DELETE;
    with another slug it returns the synthetic response. *)
Lemma delete_not_raised_on_status_300 :
  fst (GitLab.project_details (Sample.provider_with 300) Sample.gitlab_self
         "123" Sample.start) = Ok (Sample.answer 300 Sample.demo)
  /\ fst (GitLab.delete_project (Sample.provider_with 300) Sample.gitlab_self
            "123" "demo" Sample.start) = Ok (Sample.answer 204 (DDict []))
  /\ map request_line
       (calls (snd (GitLab.delete_project (Sample.provider_with 300) Sample.gitlab_self
                      "123" "demo" Sample.start))) =
     [(GET, "https://gitlab.com/api/v4/projects/123");
      (DELETE, "https://gitlab.com/api/v4/projects/123")]
  /\ fst (GitLab.delete_project (Sample.provider_with 300) Sample.gitlab_self
            "123" "wrong" Sample.start) = Ok HTTP400_DELETION_REFUSED.
Proof. vm_compute. repeat split. Qed.

(** C8, amended, on the three providers: the details of [123] are answered
    with status 404. *)
Lemma delete_raises_on_error_status_witness :
  delete_project (Sample.strategy_for 404 bitbucket) "123" "demo" Sample.start =
    (Raise (HTTPError 404),
     snd (project_details (Sample.strategy_for 404 bitbucket) "123" Sample.start))
  /\ delete_project (Sample.strategy_for 404 github) "123" "demo" Sample.start =
    (Raise (HTTPError 404),
     snd (project_details (Sample.strategy_for 404 github) "123" Sample.start))
  /\ delete_project (Sample.strategy_for 404 gitlab) "123" "demo" Sample.start =
    (Raise (HTTPError 404),
     snd (project_details (Sample.strategy_for 404 gitlab) "123" Sample.start)).
Proof.
  split; [|split].
  - apply (delete_raises_on_error_status (Sample.provider_with 404) Sample.slugify
             Sample.json_dumps bitbucket Sample.bitbucket_self "123" "demo"
             Sample.start (Sample.answer 404 Sample.demo));
      [vm_compute; reflexivity|simpl; lia].
  - apply (delete_raises_on_error_status (Sample.provider_with 404) Sample.slugify
             Sample.json_dumps github Sample.github_self "123" "demo"
             Sample.start (Sample.answer 404 Sample.demo));
      [vm_compute; reflexivity|simpl; lia].
  - apply (delete_raises_on_error_status (Sample.provider_with 404) Sample.slugify
             Sample.json_dumps gitlab Sample.gitlab_self "123" "demo"
             Sample.start (Sample.answer 404 Sample.demo));
      [vm_compute; reflexivity|simpl; lia].
Defined.

(** C3 as it is stated fails on GitHub: the payload of [create_project "x"]
    has [private] false. *)
Lemma github_create_default_is_public :
  map (fun c => (request_line c, payload_field c "json" "private"))
    (calls (snd (GitHub.create_project Sample.transport Sample.slugify
                   Sample.github_self "x" None [] Sample.start))) =
    [((POST, "https://api.github.com/user/repos"), Some (VBool false))]
  /\ Some (VBool false) <> Some (VBool true).
Proof. split; [vm_compute; reflexivity|discriminate]. Qed.

(** C3, amended, on the three providers. *)
Lemma create_project_default_visibility_witness :
  (exists cu c,
     calls (snd (Bitbucket.create_project Sample.transport Sample.slugify
                   Sample.bitbucket_self "x" None [] Sample.start)) =
       calls Sample.start ++ [cu; c]
     /\ c_verb cu = GET /\ c_verb c = POST
     /\ payload_field c "json" "is_private" = Some (VBool true))
  /\ (exists c,
     calls (snd (GitHub.create_project Sample.transport Sample.slugify
                   Sample.github_self "x" None [] Sample.start)) =
       calls Sample.start ++ [c]
     /\ c_verb c = POST
     /\ payload_field c "json" "private" = Some (VBool false))
  /\ (exists c,
     calls (snd (GitLab.create_project Sample.transport
                   Sample.gitlab_self "x" None [] Sample.start)) =
       calls Sample.start ++ [c]
     /\ c_verb c = POST
     /\ payload_field c "params" "public" = Some (VBool false)).
Proof.
  destruct (create_project_default_visibility Sample.transport Sample.slugify "x" None [])
    as (Hbb & Hgh & Hgl).
  split; [|split].
  - apply (Hbb Sample.bitbucket_self Sample.start (Sample.ok Sample.user) Sample.user "alice");
      [reflexivity|apply sample_answers_bitbucket_user|reflexivity|reflexivity|reflexivity].
  - apply (Hgh Sample.github_self Sample.start). reflexivity.
  - apply (Hgl Sample.gitlab_self Sample.start). reflexivity.
Defined.

(** C4 as it is stated fails on GitLab: the payload of
    [create_project "My Project"] has [path] [None], and no slug of the
    name. *)
Lemma gitlab_create_path_is_none :
  map (fun c => (request_line c, payload_field c "params" "name",
                 payload_field c "params" "path"))
    (calls (snd (GitLab.create_project Sample.transport Sample.gitlab_self
                   "My Project" None [] Sample.start))) =
    [((POST, "https://gitlab.com/api/v4/projects"),
      Some (VStr "My Project"), Some VNone)]
  /\ Sample.slugify "My Project" = "my-project"
  /\ Some VNone <> Some (VStr "my-project").
Proof. split; [vm_compute; reflexivity|split; [reflexivity|discriminate]]. Qed.

(** C4, amended, on the three providers. *)
Lemma create_project_without_slug_witness :
  (exists cu c,
     calls (snd (Bitbucket.create_project Sample.transport Sample.slugify
                   Sample.bitbucket_self "My Project" None [] Sample.start)) =
       calls Sample.start ++ [cu; c]
     /\ request_line c =
          (POST, url_of Sample.bitbucket_self
                   ["repositories"; "alice"; Sample.slugify "My Project"]))
  /\ (exists c,
     calls (snd (GitHub.create_project Sample.transport Sample.slugify
                   Sample.github_self "My Project" None [] Sample.start)) =
       calls Sample.start ++ [c]
     /\ c_verb c = POST
     /\ payload_field c "json" "name" = Some (VStr (Sample.slugify "My Project")))
  /\ (exists c,
     calls (snd (GitLab.create_project Sample.transport
                   Sample.gitlab_self "My Project" None [] Sample.start)) =
       calls Sample.start ++ [c]
     /\ c_verb c = POST
     /\ payload_field c "params" "path" = Some (opt_val None)
     /\ (@None string = None -> payload_field c "params" "path" = Some VNone)).
Proof.
  destruct (create_project_without_slug Sample.transport Sample.slugify
              "My Project" None [] eq_refl) as (Hbb & Hgh & Hgl).
  split; [|split].
  - apply (Hbb Sample.bitbucket_self Sample.start (Sample.ok Sample.user) Sample.user "alice");
      [apply sample_answers_bitbucket_user|reflexivity|reflexivity|reflexivity].
  - apply (Hgh Sample.github_self Sample.start). reflexivity.
  - apply (Hgl Sample.gitlab_self Sample.start). reflexivity.
Defined.

(** C5 on [{headers: {a: 1}}] merged with [headers={b: 2}], which leaves
    [{a: 1, b: 2}] under [headers]; on [{a: 1}], which gets the entry; and on
    [{headers: 7}], which raises. *)
Lemma merge_dict_cases_witness :
  merge_dict (VRef 0) [("headers", VRef 2)] Sample.merging =
    (Ok (VRef 0),
     {| heap := [[("headers", VRef 1)]; [("a", VInt 1); ("b", VInt 2)];
                 [("b", VInt 2)]; [("headers", VInt 7)]];
        calls := [] |})
  /\ merge_dict (VRef 1) [("headers", VRef 2)] Sample.merging =
    (Ok (VRef 1),
     {| heap := [[("headers", VRef 1)]; [("a", VInt 1); ("headers", VRef 2)];
                 [("b", VInt 2)]; [("headers", VInt 7)]];
        calls := [] |})
  /\ merge_dict (VRef 3) [("headers", VRef 2)] Sample.merging =
    (Raise AttributeError, Sample.merging).
Proof.
  split; [|split].
  - apply (merge_dict_cases 0 [("headers", VRef 1)] "headers" (VRef 2) Sample.merging
             eq_refl) with (x := 1%nat) (dx := [("a", VInt 1)]) (n := 2%nat)
                           (dn := [("b", VInt 2)]); reflexivity.
  - apply (merge_dict_cases 1 [("a", VInt 1)] "headers" (VRef 2) Sample.merging eq_refl).
    reflexivity.
  - apply (merge_dict_cases 3 [("headers", VInt 7)] "headers" (VRef 2) Sample.merging
             eq_refl) with (v := VInt 7); [reflexivity|discriminate].
Defined.

(** C6 on the refused deletion of [123] with slug [wrong] on GitLab: the
    facade raises the HTTP error 400 and its slot holds the message. *)
Lemma facade_decodes_before_raising_witness :
  fst (facade_run (DeleteProject "123" "wrong")
         (ServiceAPI_init (Sample.strategy_for 200 gitlab), Sample.start)) =
    Raise (HTTPError 400)
  /\ response (fst (snd (facade_run (DeleteProject "123" "wrong")
         (ServiceAPI_init (Sample.strategy_for 200 gitlab), Sample.start)))) =
    DDict [("message", DStr "Slug does not match project. Deletion refused.")].
Proof.
  destruct (facade_decodes_before_raising (DeleteProject "123" "wrong")
              (ServiceAPI_init (Sample.strategy_for 200 gitlab)) Sample.start
              HTTP400_DELETION_REFUSED
              (snd (GitLab.delete_project Sample.transport Sample.gitlab_self
                      "123" "wrong" Sample.start))
              (DDict [("message", DStr "Slug does not match project. Deletion refused.")]))
    as (_ & Hslot & Hraise); [vm_compute; reflexivity|reflexivity|].
  split; [apply Hraise; simpl; lia|exact Hslot].
Defined.

(** C9 on the project [123]. *)
Lemma bitbucket_update_without_slug_witness :
  fst (Bitbucket.update_project Sample.transport Sample.bitbucket_self
         "123" None [] Sample.start) = Raise TypeError
  /\ map request_line
       (calls (snd (Bitbucket.update_project Sample.transport Sample.bitbucket_self
                      "123" None [] Sample.start))) =
     map request_line (calls Sample.start) ++
       [(GET, url_of Sample.bitbucket_self ["user"])].
Proof.
  destruct (bitbucket_update_without_slug Sample.transport Sample.bitbucket_self
              "123" [] Sample.start) as (_ & _ & H).
  apply (H (Sample.ok Sample.user) Sample.user (DStr "alice"));
    [apply sample_answers_bitbucket_user|reflexivity|reflexivity|reflexivity].
Defined.

(** C10 on a GET of GitLab's [projects] with the caller's headers
    [{Accept: text/plain, Authorization: mine}]. *)
Lemma caller_headers_mutated_witness :
  exists d',
    heap (snd (executor Sample.transport GET Sample.gitlab_self "projects" (map DStr [])
                 [("headers", VRef 1)] Sample.with_caller_headers)) !! 1%nat = Some d'
    /\ d' = dict_update [("Accept", VStr "text/plain"); ("Authorization", VStr "mine")]
              [("Authorization", VStr "Bearer t0ken")]
    /\ (forall k v, dict_get [("Authorization", VStr "Bearer t0ken")] k = Some v ->
                    dict_get d' k = Some v)
    /\ (forall k, dict_get [("Authorization", VStr "Bearer t0ken")] k = None ->
                  dict_get d' k =
                  dict_get [("Accept", VStr "text/plain"); ("Authorization", VStr "mine")] k).
Proof.
  destruct (caller_headers_mutated Sample.transport) as (_ & H & _).
  apply (H GET Sample.gitlab_self "projects" [] [("headers", VRef 1)]
           Sample.with_caller_headers 1%nat
           [("Accept", VStr "text/plain"); ("Authorization", VStr "mine")]
           0%nat [("Authorization", VStr "Bearer t0ken")]);
    try reflexivity.
  apply NoDup_cons. split; [apply not_elem_of_nil|apply NoDup_nil_2].
Defined.

(** * What the operations send *)

Section Sends.

Context {A B : Type} (P : store -> call -> Prop).

Lemma sends_quiet n (m : M A) :
  (forall w r w', m w = (r, w') -> w' = w) -> sends P n m.
Proof.
  intros H w r w' E. rewrite (H _ _ _ E). exists [], [].
  rewrite !app_nil_r. repeat split; [apply Nat.le_0_l|constructor].
Qed.

Lemma sends_ret n (a : A) : sends P n (mret a).
Proof. apply sends_quiet. intros w r w' E. now inversion E. Qed.

Lemma sends_lift n (r : result A) : sends P n (lift r).
Proof. apply sends_quiet. intros w r' w' E. now inversion E. Qed.

Lemma sends_raise n (e : exn) : sends P n (raise (A := A) e).
Proof. apply sends_quiet. intros w r' w' E. now inversion E. Qed.

Lemma sends_le n n' (m : M A) : (n <= n')%nat -> sends P n m -> sends P n' m.
Proof.
  intros Hle Hm w r w' E. destruct (Hm _ _ _ E) as (hs & cs & Hh & Hc & Hl & HF).
  exists hs, cs. repeat split; try assumption. lia.
Qed.

Lemma sends_bind n a b (m : M A) (f : A -> M B) :
  stable P -> sends P a m -> (forall x, sends P b (f x)) -> (a + b <= n)%nat ->
  sends P n (m ≫= f).
Proof.
  intros HP Hm Hf Hle w r w' E. rewrite run_bind in E.
  destruct (m w) as [[x|e] w1] eqn:E1.
  - destruct (Hm _ _ _ E1) as (hs1 & cs1 & Hh1 & Hc1 & Hl1 & F1).
    destruct (Hf x _ _ _ E) as (hs2 & cs2 & Hh2 & Hc2 & Hl2 & F2).
    exists (hs1 ++ hs2), (cs1 ++ cs2).
    rewrite Hh2, Hh1, Hc2, Hc1, !app_assoc, length_app.
    repeat split; [lia|]. apply Forall_app. split; [assumption|].
    rewrite Hh1 in F2. eapply Forall_impl; [exact F2|]. intros c. apply HP.
  - inversion E; subst.
    destruct (Hm _ _ _ E1) as (hs1 & cs1 & Hh1 & Hc1 & Hl1 & F1).
    exists hs1, cs1. repeat split; try assumption. lia.
Qed.

End Sends.

Lemma sends_new_dict P n items : sends P n (new_dict items).
Proof.
  intros w r w' E. inversion E; subst. exists [items], []. simpl.
  rewrite app_nil_r. repeat split; [apply Nat.le_0_l|constructor].
Qed.

(** A dictionary made and filled at once is one new object. *)
Lemma sends_new_updated {A} P n items kwargs (f : val -> M A) :
  stable P -> (forall d, sends P n (f d)) ->
  sends P n (d ← new_dict items; update_items d kwargs ;; f d).
Proof.
  intros HP Hf w r w' E. rewrite run_bind in E. unfold new_dict at 1 in E.
  rewrite run_bind in E. unfold update_items at 1 in E. simpl heap in E.
  rewrite store_lookup_new, store_insert_new in E. simpl calls in E.
  destruct (Hf _ _ _ _ E) as (hs & cs & Hh & Hc & Hl & HF). simpl in Hh, Hc, HF.
  exists ([dict_update items kwargs] ++ hs), cs.
  rewrite Hh, Hc, app_assoc. repeat split; [assumption|].
  eapply Forall_impl; [exact HF|]. intros c. apply HP.
Qed.

Lemma carries_stable self allowed : stable (carries self allowed).
Proof.
  intros h hs c (Hv & Ht & Hk & hs' & Hs).
  repeat split; try assumption. exists (hs ++ hs'). now rewrite Hs, app_assoc.
Qed.

Section SendsStrategy.

Variable transport : list call -> call -> result Response.
Variable slugify : string -> string.
Variable json_dumps : pydict -> string.

(** A call of the executor with no [headers] and no [timeout] of the caller. *)
Lemma sends_executor self allowed n m endpoint args kwargs :
  m ∈ allowed ->
  dict_get kwargs "headers" = None ->
  dict_get kwargs "timeout" = None ->
  sends (carries self allowed) (S n) (executor transport m self endpoint args kwargs).
Proof.
  intros Hm Hh Ht w r w' E.
  destruct (str_items args) as [segments|] eqn:Hs.
  - apply str_items_Some in Hs as ->.
    rewrite executor_issues in E by assumption. inversion E; subst; clear E.
    eexists [_], [_]. simpl heap. simpl calls.
    repeat split; [simpl; lia|]. constructor; [|constructor].
    repeat split; simpl; try assumption.
    + rewrite <- (dict_set_fresh kwargs "headers" _ Hh). now rewrite dict_get_set.
    + eauto.
  - rewrite executor_not_strings in E by assumption. inversion E; subst; clear E.
    exists [kwargs], []. simpl. rewrite app_nil_r.
    repeat split; [lia|constructor].
Qed.

Lemma sends_get_json self allowed n endpoint args :
  GET ∈ allowed ->
  sends (carries self allowed) (S n) (get_json_or_raise transport self endpoint args []).
Proof.
  intros HG. unfold get_json_or_raise. as_executor.
  apply (sends_bind _ (S n) (S n) 0); [apply carries_stable| |intros r|lia].
  - now apply sends_executor.
  - apply (sends_bind _ 0 0 0); [apply carries_stable|apply sends_lift| |lia].
    intros _. apply sends_lift.
Qed.

Lemma sends_bitbucket_username self allowed n :
  GET ∈ allowed ->
  sends (carries self allowed) (S n) (Bitbucket.username transport self).
Proof.
  intros HG. apply (sends_bind _ (S n) (S n) 0); [apply carries_stable| | |lia].
  - now apply sends_get_json.
  - intros j. apply sends_lift.
Qed.

Lemma sends_github_username self allowed n :
  GET ∈ allowed ->
  sends (carries self allowed) (S n) (GitHub.username transport self).
Proof.
  intros HG. apply (sends_bind _ (S n) (S n) 0); [apply carries_stable| | |lia].
  - now apply sends_get_json.
  - intros j. apply sends_lift.
Qed.

End SendsStrategy.

Ltac sends_bind_with a b :=
  apply (sends_bind _ _ a b); [apply carries_stable| |intros ?|simpl; lia].

Ltac sends_leaf :=
  as_executor;
  first
    [ apply sends_ret
    | apply sends_lift
    | apply sends_raise
    | apply sends_new_dict
    | apply sends_executor; [repeat constructor|reflexivity|reflexivity]
    | apply sends_get_json; repeat constructor
    | apply sends_bitbucket_username; repeat constructor
    | apply sends_github_username; repeat constructor ].

Section SendsOperations.

Variable transport : list call -> call -> result Response.
Variable slugify : string -> string.
Variable json_dumps : pydict -> string.

Lemma sends_bitbucket_details self allowed n key :
  GET ∈ allowed ->
  sends (carries self allowed) (S (S n)) (Bitbucket.project_details transport self key).
Proof.
  intros HG. unfold Bitbucket.project_details. as_executor.
  apply (sends_bind _ _ 1 1); [apply carries_stable| |intros u|lia].
  - now apply sends_bitbucket_username.
  - now apply sends_executor.
Qed.

Lemma sends_github_details self allowed n key :
  GET ∈ allowed ->
  sends (carries self allowed) (S (S n)) (GitHub.project_details transport self key).
Proof.
  intros HG. unfold GitHub.project_details. as_executor.
  apply (sends_bind _ _ 1 1); [apply carries_stable| |intros u|lia].
  - now apply sends_github_username.
  - now apply sends_executor.
Qed.

(** Each operation of each provider, in every world and whatever the
    environment answers. *)
Lemma sends_strategy_run p self o :
  sends (carries self (verbs o)) (max_calls p o)
    (strategy_run (strategy_of transport slugify json_dumps p self) o).
Proof.
  destruct p, o; simpl strategy_run; simpl max_calls; simpl verbs.
  - (* Bitbucket, create *)
    unfold Bitbucket.create_project.
    apply sends_new_updated; [apply carries_stable|intros d].
    sends_bind_with 1%nat 1%nat; sends_leaf.
  - unfold Bitbucket.update_project.
    apply sends_new_updated; [apply carries_stable|intros d].
    sends_bind_with 1%nat 1%nat; sends_leaf.
  - unfold Bitbucket.delete_project.
    sends_bind_with 2%nat 2%nat; [apply sends_bitbucket_details; repeat constructor|].
    sends_bind_with 0%nat 2%nat; [sends_leaf|].
    sends_bind_with 0%nat 2%nat; [sends_leaf|].
    sends_bind_with 0%nat 2%nat; [sends_leaf|].
    match goal with |- context [if ?b then _ else _] => destruct b end; [|sends_leaf].
    sends_bind_with 1%nat 1%nat; sends_leaf.
  - unfold Bitbucket.list_projects.
    sends_bind_with 1%nat 1%nat; sends_leaf.
  - apply sends_bitbucket_details. repeat constructor.
  - apply sends_raise.
  - (* GitHub *)
    unfold GitHub.create_project.
    apply sends_new_updated; [apply carries_stable|intros d]. sends_leaf.
  - unfold GitHub.update_project.
    apply sends_new_updated; [apply carries_stable|intros d].
    sends_bind_with 1%nat 1%nat; sends_leaf.
  - unfold GitHub.delete_project.
    sends_bind_with 2%nat 2%nat; [apply sends_github_details; repeat constructor|].
    sends_bind_with 0%nat 2%nat; [sends_leaf|].
    sends_bind_with 0%nat 2%nat; [sends_leaf|].
    sends_bind_with 0%nat 2%nat; [sends_leaf|].
    match goal with |- context [if ?b then _ else _] => destruct b end; [|sends_leaf].
    sends_bind_with 1%nat 1%nat; sends_leaf.
  - unfold GitHub.list_projects. sends_leaf.
  - apply sends_github_details. repeat constructor.
  - unfold GitHub.add_deploy_key.
    sends_bind_with 1%nat 1%nat; sends_leaf.
  - (* GitLab *)
    unfold GitLab.create_project.
    apply sends_new_updated; [apply carries_stable|intros d]. sends_leaf.
  - unfold GitLab.update_project.
    apply sends_new_updated; [apply carries_stable|intros d]. sends_leaf.
  - unfold GitLab.delete_project, GitLab.project_details.
    sends_bind_with 1%nat 1%nat; [sends_leaf|].
    sends_bind_with 0%nat 1%nat; [sends_leaf|].
    sends_bind_with 0%nat 1%nat; [sends_leaf|].
    sends_bind_with 0%nat 1%nat; [sends_leaf|].
    match goal with |- context [if ?b then _ else _] => destruct b end; sends_leaf.
  - unfold GitLab.list_projects. sends_leaf.
  - unfold GitLab.project_details. sends_leaf.
  - unfold GitLab.add_deploy_key.
    sends_bind_with 0%nat 1%nat; sends_leaf.
Qed.

End SendsOperations.

Section OperationCalls.

Variable transport : list call -> call -> result Response.
Variable slugify : string -> string.
Variable json_dumps : pydict -> string.

(** X1.  Whatever the environment answers, the calls an operation adds to
    the log use the verbs of the operation only: [list_projects] and
    [project_details] make GET calls only, [create_project] and
    [add_deploy_key] GET and POST, [update_project] GET and PUT, and
    [delete_project] GET and DELETE; so a DELETE is only ever issued by
    [delete_project]. *)
Theorem operation_verbs p self o w :
  exists cs,
    calls (snd (strategy_run (strategy_of transport slugify json_dumps p self) o w)) = calls w ++ cs
    /\ Forall (fun c => c_verb c ∈ verbs o) cs.
Proof.
  destruct (strategy_run (strategy_of transport slugify json_dumps p self) o w) as [r w'] eqn:E.
  destruct (sends_strategy_run transport slugify json_dumps p self o _ _ _ E)
    as (hs & cs & Hh & Hc & Hl & HF).
  exists cs. split; [assumption|].
  eapply Forall_impl; [exact HF|]. now intros c (Hv & _).
Qed.

(** X2.  An operation adds at most [max_calls] calls to the log: at most
    four in all (a deletion on Bitbucket or GitHub: two lookups of the user,
    the fetch and the DELETE), at most two on GitLab, and none for
    [add_deploy_key] on Bitbucket. *)
Theorem operation_call_count p self o w :
  exists cs,
    calls (snd (strategy_run (strategy_of transport slugify json_dumps p self) o w)) = calls w ++ cs
    /\ (length cs <= max_calls p o)%nat
    /\ (max_calls p o <= 4)%nat
    /\ (max_calls gitlab o <= 2)%nat.
Proof.
  destruct (strategy_run (strategy_of transport slugify json_dumps p self) o w) as [r w'] eqn:E.
  destruct (sends_strategy_run transport slugify json_dumps p self o _ _ _ E)
    as (hs & cs & Hh & Hc & Hl & HF).
  exists cs. repeat split; try assumption.
  - destruct p, o; simpl; lia.
  - destruct o; simpl; lia.
Qed.

(** X3.  An operation changes no dictionary of the store: it only adds
    dictionaries after those that were there. *)
Theorem operation_only_allocates p self o w :
  exists hs,
    heap (snd (strategy_run (strategy_of transport slugify json_dumps p self) o w)) =
      heap w ++ hs.
Proof.
  destruct (strategy_run (strategy_of transport slugify json_dumps p self) o w) as [r w'] eqn:E.
  destruct (sends_strategy_run transport slugify json_dumps p self o _ _ _ E)
    as (hs & cs & Hh & Hc & Hl & HF).
  now exists hs.
Qed.

(** X4.  When the headers of the strategy are the dictionary [fixed], every
    call an operation adds to the log has the timeout of the strategy and
    carries [fixed] as its headers: with the bearer token, when [fixed] holds
    it. *)
Theorem operation_requests_carry_headers p self o w f fixed :
  headers self = VRef f ->
  heap w !! f = Some fixed ->
  exists cs,
    calls (snd (strategy_run (strategy_of transport slugify json_dumps p self) o w)) = calls w ++ cs
    /\ Forall (fun c => c_timeout c = timeout self
                        /\ payload c "headers" = Some fixed
                        /\ payload_field c "headers" "Authorization" =
                             dict_get fixed "Authorization") cs.
Proof.
  intros Hf Hfixed.
  destruct (strategy_run (strategy_of transport slugify json_dumps p self) o w)
    as [r w'] eqn:E.
  destruct (sends_strategy_run transport slugify json_dumps p self o _ _ _ E)
    as (hs & cs & Hh & Hc & Hl & HF).
  exists cs. split; [assumption|].
  eapply Forall_impl; [exact HF|]. intros c (_ & Ht & Hk & hs' & Hs).
  assert (payload c "headers" = Some fixed) as Hp.
  { unfold payload. rewrite Hk, Hf, Hs.
    rewrite lookup_app_l by (eapply lookup_lt_Some; eassumption). assumption. }
  split; [assumption|]. split; [assumption|].
  unfold payload_field. now rewrite Hp.
Qed.

End OperationCalls.

(** X4 on the deletion of [demo] on Bitbucket: its four calls carry the
    token. *)
Lemma operation_requests_carry_headers_witness :
  exists cs,
    calls (snd (strategy_run (Sample.strategy_for 200 bitbucket)
                  (DeleteProject "123" "demo") Sample.start)) =
      calls Sample.start ++ cs
    /\ Forall (fun c => c_timeout c = timeout Sample.bitbucket_self
                        /\ payload c "headers" = Some [("Authorization", VStr "Bearer t0ken")]
                        /\ payload_field c "headers" "Authorization" =
                             dict_get [("Authorization", VStr "Bearer t0ken")] "Authorization")
         cs.
Proof.
  apply (operation_requests_carry_headers (Sample.provider_with 200) Sample.slugify
           Sample.json_dumps bitbucket Sample.bitbucket_self (DeleteProject "123" "demo")
           Sample.start 0%nat [("Authorization", VStr "Bearer t0ken")]); reflexivity.
Defined.

(** * More on the executor *)

Lemma str_items_None args :
  str_items args = None <-> exists a, a ∈ args /\ forall s, a <> DStr s.
Proof.
  induction args as [|a args IH]; simpl.
  - split; [discriminate|]. intros (a & Ha & _). now apply elem_of_nil in Ha.
  - split.
    + intros H. destruct a;
        try (eexists; split; [apply list_elem_of_here|discriminate]).
      destruct (str_items args) as [ss|]; [discriminate|].
      destruct (proj1 IH eq_refl) as (a & Ha & Hne).
      exists a. split; [now apply list_elem_of_further|assumption].
    + intros (b & Hb & Hne). apply elem_of_cons in Hb as [->|Hb].
      * destruct a; try reflexivity. now destruct (Hne s).
      * destruct a; try reflexivity.
        assert (str_items args = None) as -> by (apply IH; eauto). reflexivity.
Qed.

Lemma string_app_assoc (x y z : string) : (x +:+ y) +:+ z = x +:+ (y +:+ z).
Proof.
  induction x as [|a x IH]; [reflexivity|].
  change (String a ((x +:+ y) +:+ z) = String a (x +:+ (y +:+ z))).
  now rewrite IH.
Qed.

Lemma concat_snoc (segments : list string) (s : string) :
  segments <> [] ->
  String.concat "/" (segments ++ [s]) = String.concat "/" segments +:+ "/" +:+ s.
Proof.
  induction segments as [|x [|y l] IH]; intros Hne; [congruence|reflexivity|].
  change (String.concat "/" ((x :: y :: l) ++ [s]))
    with (x +:+ "/" +:+ String.concat "/" ((y :: l) ++ [s])).
  rewrite IH by discriminate.
  change (String.concat "/" (x :: y :: l)) with (x +:+ "/" +:+ String.concat "/" (y :: l)).
  now rewrite !string_app_assoc.
Qed.

(** X5.  [url_for_endpoint] joins the base URL, the endpoint and the
    arguments with [/], as they are: one more string argument adds [/] and
    the argument to the URL; with no argument the URL is the base URL, [/]
    and the endpoint; and an argument that is not a string raises
    [TypeError]. *)
Theorem url_for_endpoint_joins self endpoint :
  url_for_endpoint self endpoint [] = Ok (base_url self +:+ "/" +:+ endpoint)
  /\ (forall segments s url,
        url_for_endpoint self endpoint (map DStr segments) = Ok url ->
        url_for_endpoint self endpoint (map DStr (segments ++ [s])) =
          Ok (url +:+ "/" +:+ s))
  /\ (forall args a,
        a ∈ args -> (forall s, a <> DStr s) ->
        url_for_endpoint self endpoint args = Raise TypeError).
Proof.
  split; [reflexivity|]. split.
  - intros segments s url. rewrite !url_for_endpoint_strings. intros [= <-].
    f_equal. unfold url_of.
    change (base_url self :: endpoint :: segments ++ [s])
      with ((base_url self :: endpoint :: segments) ++ [s]).
    now rewrite concat_snoc.
  - intros args a Ha Hne. apply url_for_endpoint_not_strings.
    apply str_items_None. eauto.
Qed.

Lemma url_for_endpoint_joins_witness :
  url_for_endpoint Sample.gitlab_self "projects" (map DStr ([] ++ ["123"])) =
    Ok ("https://gitlab.com/api/v4/projects" +:+ "/" +:+ "123")
  /\ url_for_endpoint Sample.gitlab_self "projects" [DInt 123] = Raise TypeError.
Proof.
  destruct (url_for_endpoint_joins Sample.gitlab_self "projects") as (_ & Hs & Hn).
  split.
  - apply (Hs [] "123"). reflexivity.
  - apply (Hn [DInt 123] (DInt 123)); [apply list_elem_of_here|discriminate].
Defined.

Section ExecutorMore.

Variable transport : list call -> call -> result Response.


(** X6.  A call with string path segments and with neither [headers] nor
    [timeout] among its keywords is issued once, to the joined URL, with the
    timeout of the strategy and with the keywords of the caller followed by
    the headers object of the strategy itself; what the environment answers is
    returned as it is, a response of any status or an exception; and the
    dictionaries of the store are left as they were. *)
Theorem executor_returns_answer m self endpoint segments kwargs w :
  dict_get kwargs "headers" = None ->
  dict_get kwargs "timeout" = None ->
  exists c hs,
    executor transport m self endpoint (map DStr segments) kwargs w =
      (transport (calls w) c, {| heap := heap w ++ hs; calls := calls w ++ [c] |})
    /\ request_line c = (m, url_of self (endpoint :: segments))
    /\ c_timeout c = timeout self
    /\ c_kwargs c = kwargs ++ [("headers", headers self)].
Proof.
  intros Hh Ht. rewrite executor_issues by assumption.
  eexists _, [_]. repeat split.
Qed.


(** X8.  A [headers] keyword that is not a dictionary ([None], a boolean,
    an integer or a string) raises [AttributeError], and no call is issued. *)
Theorem executor_rejects_headers_not_dict m self endpoint segments kwargs w v :
  dict_get kwargs "headers" = Some v ->
  (forall l, v <> VRef l) ->
  executor transport m self endpoint (map DStr segments) kwargs w =
    (Raise AttributeError, {| heap := heap w ++ [kwargs]; calls := calls w |}).
Proof.
  intros Hh Hv. rewrite executor_unfold.
  rewrite run_bind. unfold new_dict at 1.
  rewrite run_bind, run_lift, url_for_endpoint_strings.
  rewrite run_bind. unfold merge_dict, for_each, merge_entry.
  rewrite !run_bind. unfold try_except.
  rewrite run_bind. unfold getitem. simpl heap.
  rewrite store_lookup_new, Hh.
  destruct v; try reflexivity. now destruct (Hv l).
Qed.

(** X9.  A path segment that is not a string raises [TypeError] before
    anything else is done: no call is issued and every dictionary of the
    store, a [headers] dictionary of the caller included, is as it was. *)
Theorem executor_rejects_segment m self endpoint args kwargs w a :
  a ∈ args ->
  (forall s, a <> DStr s) ->
  fst (executor transport m self endpoint args kwargs w) = Raise TypeError
  /\ calls (snd (executor transport m self endpoint args kwargs w)) = calls w
  /\ forall l d, heap w !! l = Some d ->
       heap (snd (executor transport m self endpoint args kwargs w)) !! l = Some d.
Proof.
  intros Ha Hne.
  rewrite executor_not_strings by (apply str_items_None; eauto).
  repeat split. intros l d Hl. simpl.
  rewrite lookup_app_l by (eapply lookup_lt_Some; eassumption). assumption.
Qed.

Lemma executor_with_headers_run m self endpoint segments kwargs w h d f fixed :
  dict_get kwargs "headers" = Some (VRef h) ->
  dict_get kwargs "timeout" = None ->
  heap w !! h = Some d ->
  headers self = VRef f ->
  heap w !! f = Some fixed ->
  executor transport m self endpoint (map DStr segments) kwargs w =
    (transport (calls w)
       {| c_verb := m; c_url := url_of self (endpoint :: segments);
          c_timeout := timeout self; c_kwargs := kwargs;
          c_store := <[h := dict_update d fixed]> (heap w ++ [kwargs]) |},
     {| heap := <[h := dict_update d fixed]> (heap w ++ [kwargs]);
        calls := calls w ++
          [{| c_verb := m; c_url := url_of self (endpoint :: segments);
              c_timeout := timeout self; c_kwargs := kwargs;
              c_store := <[h := dict_update d fixed]> (heap w ++ [kwargs]) |}] |}).
Proof.
  intros Hk Ht Hh Hf Hfixed.
  pose proof (lookup_lt_Some _ _ _ Hh) as Hlt.
  rewrite executor_unfold.
  rewrite run_bind. unfold new_dict at 1.
  rewrite run_bind, run_lift, url_for_endpoint_strings.
  rewrite run_bind. unfold merge_dict, for_each, merge_entry.
  rewrite !run_bind. unfold try_except.
  rewrite run_bind. unfold getitem. simpl heap.
  rewrite store_lookup_new, Hk, Hf. unfold update. simpl heap.
  rewrite (lookup_app_l (heap w) _ f) by (eapply lookup_lt_Some; eassumption).
  rewrite Hfixed. unfold update_items. simpl heap.
  rewrite (lookup_app_l (heap w) _ h) by assumption.
  rewrite Hh, !run_ret. unfold request. simpl heap. simpl calls.
  rewrite list_lookup_insert_ne by lia.
  now rewrite store_lookup_new, Ht.
Qed.

(** X10.  With a [headers] dictionary [h] of the caller (and no [timeout]),
    the call is issued with the keywords of the caller, and the headers it
    carries are those of [h] updated with the headers of the strategy; of the
    dictionaries that were in the store only [h] is changed, so that the
    headers of the strategy stay as they were unless they are [h] itself. *)
Theorem executor_sends_merged_headers m self endpoint segments kwargs w h d f fixed :
  dict_get kwargs "headers" = Some (VRef h) ->
  dict_get kwargs "timeout" = None ->
  heap w !! h = Some d ->
  headers self = VRef f ->
  heap w !! f = Some fixed ->
  exists c,
    executor transport m self endpoint (map DStr segments) kwargs w =
      (transport (calls w) c,
       {| heap := <[h := dict_update d fixed]> (heap w ++ [kwargs]);
          calls := calls w ++ [c] |})
    /\ request_line c = (m, url_of self (endpoint :: segments))
    /\ c_kwargs c = kwargs
    /\ payload c "headers" = Some (dict_update d fixed)
    /\ forall l, l <> h ->
         (<[h := dict_update d fixed]> (heap w ++ [kwargs])) !! l =
         (heap w ++ [kwargs]) !! l.
Proof.
  intros Hk Ht Hh Hf Hfixed.
  pose proof (lookup_lt_Some _ _ _ Hh) as Hlt.
  rewrite (executor_with_headers_run m self endpoint segments kwargs w h d f fixed)
    by assumption.
  eexists. split; [reflexivity|]. split; [reflexivity|]. split; [reflexivity|].
  split.
  - unfold payload. simpl c_kwargs. rewrite Hk. simpl c_store.
    apply list_lookup_insert_eq. rewrite length_app. simpl. lia.
  - intros l Hl. now apply list_lookup_insert_ne.
Qed.

End ExecutorMore.

(** X6 on a GET of the project [123] of GitLab, answered with status 404:
    the response is returned, not raised. *)
Lemma executor_returns_answer_witness :
  (exists c hs,
    executor (Sample.provider_with 404) GET Sample.gitlab_self "projects"
        (map DStr ["123"]) [] Sample.start =
      (Sample.provider_with 404 (calls Sample.start) c,
       {| heap := heap Sample.start ++ hs; calls := calls Sample.start ++ [c] |})
    /\ request_line c = (GET, url_of Sample.gitlab_self ["projects"; "123"])
    /\ c_timeout c = timeout Sample.gitlab_self
    /\ c_kwargs c = [] ++ [("headers", headers Sample.gitlab_self)])
  /\ fst (executor (Sample.provider_with 404) GET Sample.gitlab_self "projects"
            (map DStr ["123"]) [] Sample.start) = Ok (Sample.answer 404 Sample.demo).
Proof.
  split; [|reflexivity].
  apply (executor_returns_answer (Sample.provider_with 404) GET Sample.gitlab_self
           "projects" ["123"] [] Sample.start); reflexivity.
Defined.


Lemma executor_rejects_headers_not_dict_witness :
  executor Sample.transport POST Sample.gitlab_self "projects" (map DStr [])
      [("headers", VNone)] Sample.start =
    (Raise AttributeError,
     {| heap := heap Sample.start ++ [[("headers", VNone)]]; calls := calls Sample.start |}).
Proof.
  apply (executor_rejects_headers_not_dict Sample.transport POST Sample.gitlab_self
           "projects" [] [("headers", VNone)] Sample.start VNone);
    [reflexivity|discriminate].
Defined.

Lemma executor_rejects_segment_witness :
  fst (executor Sample.transport GET Sample.gitlab_self "projects" [DInt 123]
         [("headers", VRef 1)] Sample.with_caller_headers) = Raise TypeError
  /\ calls (snd (executor Sample.transport GET Sample.gitlab_self "projects" [DInt 123]
                   [("headers", VRef 1)] Sample.with_caller_headers)) =
     calls Sample.with_caller_headers
  /\ forall l d, heap Sample.with_caller_headers !! l = Some d ->
       heap (snd (executor Sample.transport GET Sample.gitlab_self "projects" [DInt 123]
                    [("headers", VRef 1)] Sample.with_caller_headers)) !! l = Some d.
Proof.
  apply (executor_rejects_segment Sample.transport GET Sample.gitlab_self "projects"
           [DInt 123] [("headers", VRef 1)] Sample.with_caller_headers (DInt 123));
    [apply list_elem_of_here|discriminate].
Defined.

Lemma executor_sends_merged_headers_witness :
  exists c,
    executor Sample.transport GET Sample.gitlab_self "projects" (map DStr [])
        [("headers", VRef 1)] Sample.with_caller_headers =
      (Sample.transport (calls Sample.with_caller_headers) c,
       {| heap := <[1%nat := dict_update
                      [("Accept", VStr "text/plain"); ("Authorization", VStr "mine")]
                      [("Authorization", VStr "Bearer t0ken")]]>
                    (heap Sample.with_caller_headers ++ [[("headers", VRef 1)]]);
          calls := calls Sample.with_caller_headers ++ [c] |})
    /\ request_line c = (GET, url_of Sample.gitlab_self ["projects"])
    /\ c_kwargs c = [("headers", VRef 1)]
    /\ payload c "headers" =
         Some (dict_update [("Accept", VStr "text/plain"); ("Authorization", VStr "mine")]
                 [("Authorization", VStr "Bearer t0ken")])
    /\ forall l, l <> 1%nat ->
         (<[1%nat := dict_update
              [("Accept", VStr "text/plain"); ("Authorization", VStr "mine")]
              [("Authorization", VStr "Bearer t0ken")]]>
            (heap Sample.with_caller_headers ++ [[("headers", VRef 1)]])) !! l =
         (heap Sample.with_caller_headers ++ [[("headers", VRef 1)]]) !! l.
Proof.
  apply (executor_sends_merged_headers Sample.transport GET Sample.gitlab_self "projects" []
           [("headers", VRef 1)] Sample.with_caller_headers 1%nat
           [("Accept", VStr "text/plain"); ("Authorization", VStr "mine")]
           0%nat [("Authorization", VStr "Bearer t0ken")]); reflexivity.
Defined.

(** * Constructors *)

Lemma init_headers_cases_aux base oauth_token t w :
  ServiceAPIStrategy_init base oauth_token VNone t w =
    (Ok {| base_url := base; headers := VRef (length (heap w)); timeout := t |},
     {| heap := heap w ++ [[("Authorization", VStr ("Bearer " +:+ oauth_token))]];
        calls := calls w |})
  /\ (forall l d,
        heap w !! l = Some d ->
        ServiceAPIStrategy_init base oauth_token (VRef l) t w =
          (Ok {| base_url := base; headers := VRef l; timeout := t |},
           {| heap := <[l := dict_set d "Authorization" (VStr ("Bearer " +:+ oauth_token))]>
                        (heap w);
              calls := calls w |})).
Proof.
  unfold ServiceAPIStrategy_init. split.
  - rewrite run_bind. unfold new_dict. rewrite run_bind. unfold update_items.
    simpl heap. now rewrite store_lookup_new, store_insert_new, run_ret.
  - intros l d Hl. rewrite run_bind, run_ret, run_bind. unfold update_items.
    now rewrite Hl, run_ret.
Qed.

(** X11.  [ServiceAPIStrategy.__init__]:
    - with no headers, the strategy gets a new dictionary that holds the
      bearer token only;
    - with a dictionary of the caller, that dictionary itself becomes the
      headers of the strategy and gets the token under [Authorization], in
      the place of an entry it had there;
    - with another value ([headers] is not [None] and not a dictionary),
      [AttributeError] is raised and nothing is changed.
    No call is issued. *)
Theorem init_headers_cases base oauth_token t w :
  ServiceAPIStrategy_init base oauth_token VNone t w =
    (Ok {| base_url := base; headers := VRef (length (heap w)); timeout := t |},
     {| heap := heap w ++ [[("Authorization", VStr ("Bearer " +:+ oauth_token))]];
        calls := calls w |})
  /\ (forall l d,
        heap w !! l = Some d ->
        ServiceAPIStrategy_init base oauth_token (VRef l) t w =
          (Ok {| base_url := base; headers := VRef l; timeout := t |},
           {| heap := <[l := dict_set d "Authorization" (VStr ("Bearer " +:+ oauth_token))]>
                        (heap w);
              calls := calls w |}))
  /\ (forall v,
        v <> VNone -> (forall l, v <> VRef l) ->
        ServiceAPIStrategy_init base oauth_token v t w = (Raise AttributeError, w)).
Proof.
  destruct (init_headers_cases_aux base oauth_token t w) as (Hnone & Hdict).
  split; [assumption|]. split; [assumption|].
  intros v Hn Hr. destruct v; try reflexivity; [congruence|now destruct (Hr l)].
Qed.

Lemma init_headers_cases_witness :
  ServiceAPIStrategy_init "https://example.org" "t0ken" (VRef 1) 10
      Sample.with_caller_headers =
    (Ok {| base_url := "https://example.org"; headers := VRef 1; timeout := 10 |},
     {| heap := <[1%nat := dict_set
                    [("Accept", VStr "text/plain"); ("Authorization", VStr "mine")]
                    "Authorization" (VStr ("Bearer " +:+ "t0ken"))]>
                  (heap Sample.with_caller_headers);
        calls := calls Sample.with_caller_headers |})
  /\ ServiceAPIStrategy_init "https://example.org" "t0ken" (VStr "x") 10
       Sample.with_caller_headers = (Raise AttributeError, Sample.with_caller_headers).
Proof.
  destruct (init_headers_cases "https://example.org" "t0ken" 10 Sample.with_caller_headers)
    as (_ & Hd & Hv).
  split; [apply Hd; reflexivity|apply Hv; discriminate].
Defined.

Section Constructors.

Variable transport : list call -> call -> result Response.
Variable slugify : string -> string.
Variable json_dumps : pydict -> string.

(** X12.  [BitbucketAPI], [GitHubAPI] and [GitLabAPI], for every token and
    in every world, return a facade whose response slot is [None] and whose
    strategy has the base URL of the provider, the default timeout of 30, and
    a new headers dictionary: the bearer token, after the [Accept] media type
    on GitHub.  They issue no call (the user is not looked up) and change no
    dictionary of the store. *)
Theorem api_constructors oauth_token w :
  let auth := ("Authorization", VStr ("Bearer " +:+ oauth_token)) in
  let new := VRef (length (heap w)) in
  Bitbucket.BitbucketAPI transport slugify oauth_token w =
    (Ok {| strategy := Bitbucket.BitbucketStrategy transport slugify
             {| base_url := "https://api.bitbucket.org/2.0"; headers := new; timeout := 30 |};
           response := DNone |},
     {| heap := heap w ++ [[auth]]; calls := calls w |})
  /\ GitHub.GitHubAPI transport slugify json_dumps oauth_token w =
    (Ok {| strategy := GitHub.GitHubStrategy transport slugify json_dumps
             {| base_url := "https://api.github.com"; headers := new; timeout := 30 |};
           response := DNone |},
     {| heap := heap w ++ [[("Accept", VStr "application/vnd.github.v3+json"); auth]];
        calls := calls w |})
  /\ GitLab.GitLabAPI transport oauth_token w =
    (Ok {| strategy := GitLab.GitLabStrategy transport
             {| base_url := "https://gitlab.com/api/v4"; headers := new; timeout := 30 |};
           response := DNone |},
     {| heap := heap w ++ [[auth]]; calls := calls w |}).
Proof.
  intros auth new. subst auth new. split; [|split].
  - unfold Bitbucket.BitbucketAPI, Bitbucket.init.
    rewrite run_bind. now rewrite (proj1 (init_headers_cases_aux _ _ _ _)).
  - unfold GitHub.GitHubAPI, GitHub.init.
    rewrite run_bind, run_bind. unfold new_dict at 1.
    rewrite (proj2 (init_headers_cases_aux _ _ _
               {| heap := heap w ++ [[("Accept", VStr "application/vnd.github.v3+json")]];
                  calls := calls w |}) _ _ (store_lookup_new (heap w) _)).
    simpl heap. now rewrite store_insert_new.
  - unfold GitLab.GitLabAPI, GitLab.init.
    rewrite run_bind. now rewrite (proj1 (init_headers_cases_aux _ _ _ _)).
Qed.

End Constructors.

(** * Lookups *)

Lemma dict_update_app {V} (d kw : list (string * V)) :
  NoDup kw.*1 -> (forall k, k ∈ kw.*1 -> k ∉ d.*1) ->
  dict_update d kw = d ++ kw.
Proof.
  unfold dict_update. revert d.
  induction kw as [|[k v] kw IH]; intros d Hnd Hdis; simpl.
  - now rewrite app_nil_r.
  - apply NoDup_cons in Hnd as [Hk Hnd].
    rewrite dict_set_fresh
      by (apply dict_get_fresh, Hdis; simpl; apply list_elem_of_here).
    rewrite IH; [now rewrite <- app_assoc|assumption|].
    intros k' Hk'. rewrite fmap_app. simpl. rewrite elem_of_app.
    intros [Hd|Hin].
    + apply (Hdis k'); [simpl; now apply list_elem_of_further|assumption].
    + apply list_elem_of_singleton in Hin as ->. contradiction.
Qed.

(** A dictionary made empty and updated holds the items it was updated
    with. *)
Lemma dict_update_nil {V} (kw : list (string * V)) :
  NoDup kw.*1 -> dict_update [] kw = kw.
Proof.
  intros Hnd. rewrite dict_update_app; [reflexivity|assumption|].
  intros k _. apply not_elem_of_nil.
Qed.

Section Lookups.

Variable transport : list call -> call -> result Response.

(** X13.  [get_json_or_raise] checks the status before it decodes: when
    the GET returned a response with a status from 400 to 599 it raises the
    HTTP error, whether the body is JSON or not; otherwise it returns the
    decoded body, or raises [ValueError] when the body is not JSON. *)
Theorem get_json_checks_status_first self endpoint args kwargs w r w1 :
  get transport self endpoint args kwargs w = (Ok r, w1) ->
  (400 <= status_code r < 600 ->
     get_json_or_raise transport self endpoint args kwargs w =
       (Raise (HTTPError (status_code r)), w1))
  /\ (raise_for_status r = Ok tt ->
        get_json_or_raise transport self endpoint args kwargs w = (json r, w1))
  /\ (raise_for_status r = Ok tt -> content r = None ->
        get_json_or_raise transport self endpoint args kwargs w = (Raise ValueError, w1)).
Proof.
  intros E. unfold get_json_or_raise. rewrite (run_bind_ok _ _ _ _ _ E).
  split; [|split].
  - intros Hs. rewrite run_bind, run_lift. unfold raise_for_status.
    destruct (Z.leb_spec 400 (status_code r)); [|lia].
    destruct (Z.ltb_spec (status_code r) 600); [reflexivity|lia].
  - intros Hs. now rewrite run_bind, run_lift, Hs, run_lift.
  - intros Hs Hc. rewrite run_bind, run_lift, Hs, run_lift. unfold json. now rewrite Hc.
Qed.

(** X14.  The user name is the [username] field (Bitbucket) or the [login]
    field (GitHub) of the decoded answer of the [user] endpoint, whatever
    value it has; a dictionary without the field raises [KeyError], and an
    answer that is not a dictionary raises [TypeError].  Nothing is called
    after the GET. *)
Theorem username_outcomes self w j w1 :
  get_json_or_raise transport self "user" [] [] w = (Ok j, w1) ->
  (forall items v, j = DDict items ->
     (dict_get items "username" = Some v ->
        Bitbucket.username transport self w = (Ok v, w1))
     /\ (dict_get items "username" = None ->
        Bitbucket.username transport self w = (Raise (KeyError "username"), w1))
     /\ (dict_get items "login" = Some v ->
        GitHub.username transport self w = (Ok v, w1))
     /\ (dict_get items "login" = None ->
        GitHub.username transport self w = (Raise (KeyError "login"), w1)))
  /\ ((forall items, j <> DDict items) ->
      Bitbucket.username transport self w = (Raise TypeError, w1)
      /\ GitHub.username transport self w = (Raise TypeError, w1)).
Proof.
  intros E. unfold Bitbucket.username, GitHub.username.
  rewrite !(run_bind_ok _ _ _ _ _ E), !run_lift. split.
  - intros items v ->. simpl. repeat split; intros ->; reflexivity.
  - intros Hj. destruct j; try (split; reflexivity). now destruct (Hj items).
Qed.

(** X15.  When the lookup of the user name raises, the operation that
    needed the name raises the same and calls nothing more: on Bitbucket
    [list_projects], [project_details] and [delete_project], on GitHub
    [project_details] and [delete_project]. *)
Theorem lookup_failure_aborts self key slug w e w1 :
  (Bitbucket.username transport self w = (Raise e, w1) ->
     Bitbucket.list_projects transport self w = (Raise e, w1)
     /\ Bitbucket.project_details transport self key w = (Raise e, w1)
     /\ Bitbucket.delete_project transport self key slug w = (Raise e, w1))
  /\ (GitHub.username transport self w = (Raise e, w1) ->
     GitHub.project_details transport self key w = (Raise e, w1)
     /\ GitHub.delete_project transport self key slug w = (Raise e, w1)).
Proof.
  split; intros E.
  - assert (Bitbucket.project_details transport self key w = (Raise e, w1)) as Hd
      by (unfold Bitbucket.project_details; now rewrite (run_bind_raise _ _ _ _ _ E)).
    split; [|split; [assumption|]].
    + unfold Bitbucket.list_projects. now rewrite (run_bind_raise _ _ _ _ _ E).
    + unfold Bitbucket.delete_project. now rewrite (run_bind_raise _ _ _ _ _ Hd).
  - assert (GitHub.project_details transport self key w = (Raise e, w1)) as Hd
      by (unfold GitHub.project_details; now rewrite (run_bind_raise _ _ _ _ _ E)).
    split; [assumption|].
    unfold GitHub.delete_project. now rewrite (run_bind_raise _ _ _ _ _ Hd).
Qed.

End Lookups.

Lemma get_json_checks_status_first_witness :
  get_json_or_raise Sample.refusing Sample.gitlab_self "user" [] [] Sample.start =
    (Raise (HTTPError 401),
     snd (get Sample.refusing Sample.gitlab_self "user" [] [] Sample.start)).
Proof.
  apply (get_json_checks_status_first Sample.refusing Sample.gitlab_self "user" [] []
           Sample.start
           {| status_code := 401; reason := "Unauthorized"; content := None |});
    [reflexivity|simpl; lia].
Defined.

Lemma username_outcomes_witness :
  Bitbucket.username Sample.transport Sample.bitbucket_self Sample.start =
    (Ok (DStr "alice"),
     snd (get_json_or_raise Sample.transport Sample.bitbucket_self "user" [] [] Sample.start))
  /\ GitHub.username (Sample.provider_with 200) Sample.gitlab_self Sample.start =
    (Raise (KeyError "login"),
     snd (get_json_or_raise (Sample.provider_with 200) Sample.gitlab_self "user" [] []
            Sample.start)).
Proof.
  split.
  - destruct (username_outcomes Sample.transport Sample.bitbucket_self Sample.start
                Sample.user
                (snd (get_json_or_raise Sample.transport Sample.bitbucket_self "user" [] []
                        Sample.start)) eq_refl) as (Hd & _).
    destruct (Hd [("username", DStr "alice"); ("login", DStr "alice")] (DStr "alice")
                eq_refl) as (H & _).
    exact (H eq_refl).
  - destruct (username_outcomes (Sample.provider_with 200) Sample.gitlab_self Sample.start
                Sample.demo
                (snd (get_json_or_raise (Sample.provider_with 200) Sample.gitlab_self
                        "user" [] [] Sample.start)) eq_refl) as (Hd & _).
    destruct (Hd [("name", DStr "demo"); ("path", DStr "demo")] DNone eq_refl)
      as (_ & _ & _ & H).
    exact (H eq_refl).
Defined.

Lemma lookup_failure_aborts_witness :
  Bitbucket.list_projects Sample.refusing Sample.bitbucket_self Sample.start =
    (Raise (HTTPError 401),
     snd (Bitbucket.username Sample.refusing Sample.bitbucket_self Sample.start))
  /\ Bitbucket.project_details Sample.refusing Sample.bitbucket_self "123" Sample.start =
    (Raise (HTTPError 401),
     snd (Bitbucket.username Sample.refusing Sample.bitbucket_self Sample.start))
  /\ Bitbucket.delete_project Sample.refusing Sample.bitbucket_self "123" "demo" Sample.start =
    (Raise (HTTPError 401),
     snd (Bitbucket.username Sample.refusing Sample.bitbucket_self Sample.start)).
Proof.
  apply (lookup_failure_aborts Sample.refusing Sample.bitbucket_self "123" "demo"
           Sample.start (HTTPError 401)). reflexivity.
Defined.

(** * Updating, listing and deploy keys *)

Section Requests.

Variable transport : list call -> call -> result Response.
Variable slugify : string -> string.
Variable json_dumps : pydict -> string.

Lemma github_username_answered self ru j u w :
  answers transport GET (url_of self ["user"]) ru ->
  raise_for_status ru = Ok tt ->
  json ru = Ok j ->
  subscript j "login" = Ok u ->
  exists c,
    GitHub.username transport self w =
      (Ok u, {| heap := heap w ++ [[("headers", headers self)]];
                calls := calls w ++ [c] |})
    /\ request_line c = (GET, url_of self ["user"]).
Proof.
  intros Ha Hs Hj Hu. unfold GitHub.username.
  destruct (get_json_answered transport self "user" ru j w Ha Hs Hj) as (c & E & Hc).
  exists c. split; [|assumption].
  now rewrite (run_bind_ok _ _ _ _ _ E), run_lift, Hu.
Qed.

(** The request made after a dictionary [d] was put at the end of the store
    [h] and, maybe, other dictionaries [hs] after it. *)
Lemma executor_with_payload m self endpoint segments keyword (h hs : store) d cs :
  keyword <> "headers" -> keyword <> "timeout" ->
  exists c,
    executor transport m self endpoint (map DStr segments) [(keyword, VRef (length h))]
      {| heap := (h ++ [d]) ++ hs; calls := cs |} =
      (transport cs c,
       {| heap := ((h ++ [d]) ++ hs) ++
                  [[(keyword, VRef (length h)); ("headers", headers self)]];
          calls := cs ++ [c] |})
    /\ request_line c = (m, url_of self (endpoint :: segments))
    /\ payload c keyword = Some d.
Proof.
  intros Hh Ht.
  assert (dict_get [(keyword, VRef (length h))] "headers" = None) as Hh'
    by (simpl; now destruct (String.eqb_spec keyword "headers")).
  assert (dict_get [(keyword, VRef (length h))] "timeout" = None) as Ht'
    by (simpl; now destruct (String.eqb_spec keyword "timeout")).
  rewrite (executor_issues transport m self endpoint segments _ _ Hh' Ht').
  eexists. split; [reflexivity|]. split; [reflexivity|].
  eapply payload_of_new_dict; [reflexivity|]. cbn [c_store heap].
  rewrite <- !app_assoc. now apply list_lookup_middle.
Qed.

(** X16.  [update_project key slug] puts the keyword arguments of the
    caller, as they are:
    - on Bitbucket, as JSON to [repositories/{username}/{slug}], whatever
      [key] is;
    - on GitHub, as JSON to [repos/{username}/{key}], whatever [slug] is;
    - on GitLab, as parameters to [projects/{key}], after a [path] that is
      the slug ([None] when left out) unless [path] is among them.
    On Bitbucket and GitHub the PUT follows the GET of the user name. *)
Theorem update_project_requests key slug kwargs :
  (forall self w ru j u s,
      slug = Some s ->
      answers transport GET (url_of self ["user"]) ru ->
      raise_for_status ru = Ok tt ->
      json ru = Ok j ->
      subscript j "username" = Ok (DStr u) ->
      exists cu c,
        calls (snd (Bitbucket.update_project transport self key slug kwargs w)) =
          calls w ++ [cu; c]
        /\ request_line cu = (GET, url_of self ["user"])
        /\ request_line c = (PUT, url_of self ["repositories"; u; s])
        /\ payload c "json" = Some (dict_update [] kwargs)
        /\ (NoDup kwargs.*1 -> payload c "json" = Some kwargs))
  /\ (forall self w ru j u,
      answers transport GET (url_of self ["user"]) ru ->
      raise_for_status ru = Ok tt ->
      json ru = Ok j ->
      subscript j "login" = Ok (DStr u) ->
      exists cu c,
        calls (snd (GitHub.update_project transport self key slug kwargs w)) =
          calls w ++ [cu; c]
        /\ request_line cu = (GET, url_of self ["user"])
        /\ request_line c = (PUT, url_of self ["repos"; u; key])
        /\ payload c "json" = Some (dict_update [] kwargs)
        /\ (NoDup kwargs.*1 -> payload c "json" = Some kwargs))
  /\ (forall self w,
      exists c,
        calls (snd (GitLab.update_project transport self key slug kwargs w)) =
          calls w ++ [c]
        /\ request_line c = (PUT, url_of self ["projects"; key])
        /\ payload c "params" = Some (dict_update [("path", opt_val slug)] kwargs)
        /\ (dict_get kwargs "path" = None ->
            payload_field c "params" "path" = Some (opt_val slug))).
Proof.
  split; [|split].
  - intros self w ru j u s -> Ha Hs Hj Hu. unfold Bitbucket.update_project.
    rewrite run_bind. unfold new_dict at 1.
    rewrite run_bind. unfold update_items at 1. simpl heap.
    rewrite store_lookup_new, store_insert_new. rewrite run_bind.
    match goal with |- context [Bitbucket.username transport self ?w0] =>
      destruct (bitbucket_username_answered transport self ru j (DStr u) w0 Ha Hs Hj Hu)
        as (cu & E & Hcu);
      rewrite E end.
    as_executor. cbn [heap calls opt_data].
    destruct (executor_with_payload PUT self "repositories" [u; s] "json" (heap w)
                [[("headers", headers self)]] (dict_update [] kwargs) (calls w ++ [cu]))
      as (c & E' & Hc & Hp); [discriminate|discriminate|].
    cbn [map] in E'. rewrite E'. cbn [snd calls].
    exists cu, c. rewrite <- app_assoc. repeat split; try assumption.
    intros Hnd. now rewrite Hp, dict_update_nil.
  - intros self w ru j u Ha Hs Hj Hu. unfold GitHub.update_project.
    rewrite run_bind. unfold new_dict at 1.
    rewrite run_bind. unfold update_items at 1. simpl heap.
    rewrite store_lookup_new, store_insert_new. rewrite run_bind.
    match goal with |- context [GitHub.username transport self ?w0] =>
      destruct (github_username_answered self ru j (DStr u) w0 Ha Hs Hj Hu)
        as (cu & E & Hcu);
      rewrite E end.
    as_executor. cbn [heap calls].
    destruct (executor_with_payload PUT self "repos" [u; key] "json" (heap w)
                [[("headers", headers self)]] (dict_update [] kwargs) (calls w ++ [cu]))
      as (c & E' & Hc & Hp); [discriminate|discriminate|].
    cbn [map] in E'. rewrite E'. cbn [snd calls].
    exists cu, c. rewrite <- app_assoc. repeat split; try assumption.
    intros Hnd. now rewrite Hp, dict_update_nil.
  - intros self w. unfold GitLab.update_project.
    rewrite run_bind. unfold new_dict at 1.
    rewrite run_bind. unfold update_items at 1. simpl heap.
    rewrite store_lookup_new, store_insert_new.
    as_executor. cbn [heap calls].
    destruct (executor_with_payload PUT self "projects" [key] "params" (heap w) []
                (dict_update [("path", opt_val slug)] kwargs) (calls w))
      as (c & E' & Hc & Hp); [discriminate|discriminate|].
    cbn [map] in E'. rewrite app_nil_r in E'. rewrite E'. cbn [snd calls].
    exists c. repeat split; try assumption.
    intros Hk. unfold payload_field. rewrite Hp.
    now rewrite dict_get_update_other.
Qed.

(** X17.  [list_projects] makes one GET and returns what the environment
    answers to it, whatever its status: of [repositories/{username}] on
    Bitbucket, after the GET of the user name; of [user/repos] on GitHub and
    of [projects] on GitLab, with no other call. *)
Theorem list_projects_requests :
  (forall self w ru j u,
      answers transport GET (url_of self ["user"]) ru ->
      raise_for_status ru = Ok tt ->
      json ru = Ok j ->
      subscript j "username" = Ok (DStr u) ->
      exists cu c w',
        Bitbucket.list_projects transport self w = (transport (calls w ++ [cu]) c, w')
        /\ calls w' = calls w ++ [cu; c]
        /\ request_line cu = (GET, url_of self ["user"])
        /\ request_line c = (GET, url_of self ["repositories"; u]))
  /\ (forall self w,
      exists c w',
        GitHub.list_projects transport self w = (transport (calls w) c, w')
        /\ calls w' = calls w ++ [c]
        /\ request_line c = (GET, url_of self ["user"; "repos"]))
  /\ (forall self w,
      exists c w',
        GitLab.list_projects transport self w = (transport (calls w) c, w')
        /\ calls w' = calls w ++ [c]
        /\ request_line c = (GET, url_of self ["projects"])).
Proof.
  split; [|split].
  - intros self w ru j u Ha Hs Hj Hu. unfold Bitbucket.list_projects.
    destruct (bitbucket_username_answered transport self ru j (DStr u) w Ha Hs Hj Hu)
      as (cu & E & Hcu).
    rewrite (run_bind_ok _ _ _ _ _ E). as_executor.
    match goal with |- context [executor transport GET self ?e _ ?k ?w0] =>
      pose proof (executor_issues transport GET self e [u] k w0 eq_refl eq_refl) as E'
    end.
    cbn [map] in E'. rewrite E'. cbn [calls].
    eexists cu, _, _. split; [reflexivity|]. cbn [calls].
    rewrite <- app_assoc. repeat split. assumption.
  - intros self w. unfold GitHub.list_projects. as_executor.
    pose proof (executor_issues transport GET self "user" ["repos"] [] w eq_refl eq_refl)
      as E'.
    cbn [map] in E'. rewrite E'. eexists _, _. repeat split.
  - intros self w. unfold GitLab.list_projects. as_executor.
    pose proof (executor_issues transport GET self "projects" [] [] w eq_refl eq_refl)
      as E'.
    cbn [map] in E'. rewrite E'. eexists _, _. repeat split.
Qed.

(** X18.  [add_deploy_key project_id key_title ssh_key read_only]:
    - on GitHub, after the GET of the user name, posts to
      [repos/{username}/{project_id}/keys] the JSON text of [title], [key]
      and [read_only] as [data];
    - on GitLab posts to [projects/{project_id}/deploy_keys] the parameters
      [id], [title], [key] and [can_push], which is the negation of
      [read_only]. *)
Theorem add_deploy_key_requests project_id key_title ssh_key read_only :
  (forall self w ru j u,
      answers transport GET (url_of self ["user"]) ru ->
      raise_for_status ru = Ok tt ->
      json ru = Ok j ->
      subscript j "login" = Ok (DStr u) ->
      exists cu c,
        calls (snd (GitHub.add_deploy_key transport json_dumps self
                      project_id key_title ssh_key read_only w)) = calls w ++ [cu; c]
        /\ request_line cu = (GET, url_of self ["user"])
        /\ request_line c = (POST, url_of self ["repos"; u; project_id; "keys"])
        /\ dict_get (c_kwargs c) "data" =
             Some (VStr (json_dumps [("title", VStr key_title); ("key", VStr ssh_key);
                                     ("read_only", VBool read_only)])))
  /\ (forall self w,
      exists c,
        calls (snd (GitLab.add_deploy_key transport self
                      project_id key_title ssh_key read_only w)) = calls w ++ [c]
        /\ request_line c = (POST, url_of self ["projects"; project_id; "deploy_keys"])
        /\ payload c "params" =
             Some [("id", VStr project_id); ("title", VStr key_title);
                   ("key", VStr ssh_key); ("can_push", VBool (negb read_only))]).
Proof.
  split.
  - intros self w ru j u Ha Hs Hj Hu. unfold GitHub.add_deploy_key.
    destruct (github_username_answered self ru j (DStr u) w Ha Hs Hj Hu)
      as (cu & E & Hcu).
    rewrite (run_bind_ok _ _ _ _ _ E). as_executor.
    match goal with |- context [executor transport POST self ?e _ ?k ?w0] =>
      pose proof (executor_issues transport POST self e [u; project_id; "keys"] k w0
                    eq_refl eq_refl) as E'
    end.
    cbn [map] in E'. rewrite E'. cbn [snd calls].
    eexists cu, _. rewrite <- app_assoc. repeat split. assumption.
  - intros self w. unfold GitLab.add_deploy_key.
    rewrite run_bind. unfold new_dict at 1. as_executor.
    destruct (executor_with_payload POST self "projects" [project_id; "deploy_keys"]
                "params" (heap w) []
                [("id", VStr project_id); ("title", VStr key_title);
                 ("key", VStr ssh_key); ("can_push", VBool (negb read_only))] (calls w))
      as (c & E' & Hc & Hp); [discriminate|discriminate|].
    cbn [map] in E'. rewrite app_nil_r in E'. rewrite E'. cbn [snd calls].
    exists c. repeat split; assumption.
Qed.

End Requests.

Lemma sample_answers_github_user status :
  answers (Sample.provider_with status) GET (url_of Sample.github_self ["user"])
    (Sample.ok Sample.user).
Proof.
  intros history c [= Hv Hu]. unfold Sample.provider_with. now rewrite Hv, Hu.
Qed.

Lemma update_project_requests_witness :
  (exists cu c,
     calls (snd (Bitbucket.update_project Sample.transport Sample.bitbucket_self
                   "123" (Some "demo") [("description", VStr "x")] Sample.start)) =
       calls Sample.start ++ [cu; c]
     /\ request_line cu = (GET, url_of Sample.bitbucket_self ["user"])
     /\ request_line c = (PUT, url_of Sample.bitbucket_self ["repositories"; "alice"; "demo"])
     /\ payload c "json" = Some (dict_update [] [("description", VStr "x")])
     /\ (NoDup [("description", VStr "x")].*1 ->
         payload c "json" = Some [("description", VStr "x")]))
  /\ (exists cu c,
     calls (snd (GitHub.update_project Sample.transport Sample.github_self
                   "123" (Some "demo") [("description", VStr "x")] Sample.start)) =
       calls Sample.start ++ [cu; c]
     /\ request_line cu = (GET, url_of Sample.github_self ["user"])
     /\ request_line c = (PUT, url_of Sample.github_self ["repos"; "alice"; "123"])
     /\ payload c "json" = Some (dict_update [] [("description", VStr "x")])
     /\ (NoDup [("description", VStr "x")].*1 ->
         payload c "json" = Some [("description", VStr "x")])).
Proof.
  destruct (update_project_requests Sample.transport "123" (Some "demo")
              [("description", VStr "x")]) as (Hbb & Hgh & _).
  split.
  - apply (Hbb Sample.bitbucket_self Sample.start (Sample.ok Sample.user) Sample.user
             "alice" "demo");
      [reflexivity|apply sample_answers_bitbucket_user|reflexivity|reflexivity|reflexivity].
  - apply (Hgh Sample.github_self Sample.start (Sample.ok Sample.user) Sample.user "alice");
      [apply sample_answers_github_user|reflexivity|reflexivity|reflexivity].
Defined.

Lemma list_projects_requests_witness :
  exists cu c w',
    Bitbucket.list_projects Sample.transport Sample.bitbucket_self Sample.start =
      (Sample.transport (calls Sample.start ++ [cu]) c, w')
    /\ calls w' = calls Sample.start ++ [cu; c]
    /\ request_line cu = (GET, url_of Sample.bitbucket_self ["user"])
    /\ request_line c = (GET, url_of Sample.bitbucket_self ["repositories"; "alice"]).
Proof.
  destruct (list_projects_requests Sample.transport) as (Hbb & _).
  apply (Hbb Sample.bitbucket_self Sample.start (Sample.ok Sample.user) Sample.user "alice");
    [apply sample_answers_bitbucket_user|reflexivity|reflexivity|reflexivity].
Defined.

Lemma add_deploy_key_requests_witness :
  exists cu c,
    calls (snd (GitHub.add_deploy_key Sample.transport Sample.json_dumps Sample.github_self
                  "123" "laptop" "ssh-rsa AAAA" true Sample.start)) =
      calls Sample.start ++ [cu; c]
    /\ request_line cu = (GET, url_of Sample.github_self ["user"])
    /\ request_line c = (POST, url_of Sample.github_self ["repos"; "alice"; "123"; "keys"])
    /\ dict_get (c_kwargs c) "data" =
         Some (VStr (Sample.json_dumps [("title", VStr "laptop"); ("key", VStr "ssh-rsa AAAA");
                                        ("read_only", VBool true)])).
Proof.
  destruct (add_deploy_key_requests Sample.transport Sample.json_dumps
              "123" "laptop" "ssh-rsa AAAA" true) as (Hgh & _).
  apply (Hgh Sample.github_self Sample.start (Sample.ok Sample.user) Sample.user "alice");
    [apply sample_answers_github_user|reflexivity|reflexivity|reflexivity].
Defined.

(** * More on creating a project *)

Section CreationMore.

Variable transport : list call -> call -> result Response.
Variable slugify : string -> string.

Lemma payload_field_given c keyword field (defaults kwargs : pydict) v :
  payload c keyword = Some (dict_update defaults kwargs) ->
  NoDup kwargs.*1 ->
  dict_get kwargs field = Some v ->
  payload_field c keyword field = Some v.
Proof.
  intros Hp Hnd Hk. unfold payload_field. rewrite Hp.
  now rewrite dict_get_update, Hk.
Qed.

(** X19.  A field among the keyword arguments of [create_project] is
    posted with the value the caller gave, in the place of the default of the
    provider or as a further field: the caller wins, field by field. *)
Theorem create_project_caller_wins name slug kwargs field v :
  NoDup kwargs.*1 ->
  dict_get kwargs field = Some v ->
  (forall self w ru j u,
      answers transport GET (url_of self ["user"]) ru ->
      raise_for_status ru = Ok tt ->
      json ru = Ok j ->
      subscript j "username" = Ok (DStr u) ->
      exists cu c,
        calls (snd (Bitbucket.create_project transport slugify self name slug kwargs w)) =
          calls w ++ [cu; c]
        /\ c_verb c = POST
        /\ payload_field c "json" field = Some v)
  /\ (forall self w,
      exists c,
        calls (snd (GitHub.create_project transport slugify self name slug kwargs w)) =
          calls w ++ [c]
        /\ c_verb c = POST
        /\ payload_field c "json" field = Some v)
  /\ (forall self w,
      exists c,
        calls (snd (GitLab.create_project transport self name slug kwargs w)) =
          calls w ++ [c]
        /\ c_verb c = POST
        /\ payload_field c "params" field = Some v).
Proof.
  intros Hnd Hk. split; [|split].
  - intros self w ru j u Ha Hs Hj Hu.
    destruct (bitbucket_create_run transport slugify self name slug kwargs w ru j u
                Ha Hs Hj Hu) as (cu & c & Hc & Hlu & Hl & Hp).
    exists cu, c. split; [assumption|]. split; [now injection Hl|].
    exact (payload_field_given _ _ _ _ _ _ Hp Hnd Hk).
  - intros self w.
    destruct (github_create_run transport slugify self name slug kwargs w)
      as (c & Hc & Hl & Hp).
    exists c. split; [assumption|]. split; [now injection Hl|].
    exact (payload_field_given _ _ _ _ _ _ Hp Hnd Hk).
  - intros self w.
    destruct (gitlab_create_run transport self name slug kwargs w)
      as (c & Hc & Hl & Hp).
    exists c. split; [assumption|]. split; [now injection Hl|].
    exact (payload_field_given _ _ _ _ _ _ Hp Hnd Hk).
Qed.

(** X20.  [create_project name slug] with a slug that is not empty uses the
    slug as it is, and does not slugify the name: Bitbucket posts to
    [repositories/{username}/{slug}], with the name in the payload; GitHub
    posts the slug as [name]; GitLab posts the slug as [path] and the name as
    [name]. *)
Theorem create_project_with_slug name s kwargs :
  s <> "" ->
  (forall self w ru j u,
      dict_get kwargs "name" = None ->
      answers transport GET (url_of self ["user"]) ru ->
      raise_for_status ru = Ok tt ->
      json ru = Ok j ->
      subscript j "username" = Ok (DStr u) ->
      exists cu c,
        calls (snd (Bitbucket.create_project transport slugify self name (Some s) kwargs w)) =
          calls w ++ [cu; c]
        /\ request_line c = (POST, url_of self ["repositories"; u; s])
        /\ payload_field c "json" "name" = Some (VStr name))
  /\ (forall self w,
      dict_get kwargs "name" = None ->
      exists c,
        calls (snd (GitHub.create_project transport slugify self name (Some s) kwargs w)) =
          calls w ++ [c]
        /\ c_verb c = POST
        /\ payload_field c "json" "name" = Some (VStr s))
  /\ (forall self w,
      dict_get kwargs "name" = None ->
      dict_get kwargs "path" = None ->
      exists c,
        calls (snd (GitLab.create_project transport self name (Some s) kwargs w)) =
          calls w ++ [c]
        /\ c_verb c = POST
        /\ payload_field c "params" "path" = Some (VStr s)
        /\ payload_field c "params" "name" = Some (VStr name)).
Proof.
  intros Hs.
  assert (truthy (Some s) = true) as Ht by (destruct s; [congruence|reflexivity]).
  split; [|split].
  - intros self w ru j u Hk Ha Hst Hj Hu.
    destruct (bitbucket_create_run transport slugify self name (Some s) kwargs w ru j u
                Ha Hst Hj Hu) as (cu & c & Hc & Hlu & Hl & Hp).
    rewrite Ht in Hl. exists cu, c. split; [assumption|]. split; [assumption|].
    now rewrite (payload_field_default _ _ _ _ _ Hp Hk).
  - intros self w Hk.
    destruct (github_create_run transport slugify self name (Some s) kwargs w)
      as (c & Hc & Hl & Hp).
    rewrite Ht in Hp. exists c. split; [assumption|]. split; [now injection Hl|].
    now rewrite (payload_field_default _ _ _ _ _ Hp Hk).
  - intros self w Hk Hpath.
    destruct (gitlab_create_run transport self name (Some s) kwargs w)
      as (c & Hc & Hl & Hp).
    exists c. split; [assumption|]. split; [now injection Hl|]. split.
    + now rewrite (payload_field_default _ _ _ _ _ Hp Hpath).
    + now rewrite (payload_field_default _ _ _ _ _ Hp Hk).
Qed.

End CreationMore.

Lemma create_project_caller_wins_witness :
  exists c,
    calls (snd (GitHub.create_project Sample.transport Sample.slugify Sample.github_self
                  "x" None [("private", VBool true)] Sample.start)) =
      calls Sample.start ++ [c]
    /\ c_verb c = POST
    /\ payload_field c "json" "private" = Some (VBool true).
Proof.
  destruct (create_project_caller_wins Sample.transport Sample.slugify "x" None
              [("private", VBool true)] "private" (VBool true)) as (_ & Hgh & _);
    [apply NoDup_cons; split; [apply not_elem_of_nil|apply NoDup_nil_2]|reflexivity|].
  apply Hgh.
Defined.

Lemma create_project_with_slug_witness :
  (exists cu c,
     calls (snd (Bitbucket.create_project Sample.transport Sample.slugify
                   Sample.bitbucket_self "My Project" (Some "Mine") [] Sample.start)) =
       calls Sample.start ++ [cu; c]
     /\ request_line c =
          (POST, url_of Sample.bitbucket_self ["repositories"; "alice"; "Mine"])
     /\ payload_field c "json" "name" = Some (VStr "My Project"))
  /\ (exists c,
     calls (snd (GitLab.create_project Sample.transport Sample.gitlab_self
                   "My Project" (Some "Mine") [] Sample.start)) =
       calls Sample.start ++ [c]
     /\ c_verb c = POST
     /\ payload_field c "params" "path" = Some (VStr "Mine")
     /\ payload_field c "params" "name" = Some (VStr "My Project")).
Proof.
  destruct (create_project_with_slug Sample.transport Sample.slugify "My Project" "Mine" [])
    as (Hbb & _ & Hgl); [discriminate|].
  split.
  - apply (Hbb Sample.bitbucket_self Sample.start (Sample.ok Sample.user) Sample.user "alice");
      [reflexivity|apply sample_answers_bitbucket_user|reflexivity|reflexivity|reflexivity].
  - apply (Hgl Sample.gitlab_self Sample.start); reflexivity.
Defined.

(** * More on the facade *)

(** What an operation of the facade does with the outcome of the strategy. *)
Lemma facade_run_unfold o api w :
  facade_run o (api, w) =
    match strategy_run (strategy api) o w with
    | (Raise e, w1) => (Raise e, (api, w1))
    | (Ok r, w1) =>
        match json r with
        | Raise e => (Raise e, (api, w1))
        | Ok j => (raise_for_status r, ({| strategy := strategy api; response := j |}, w1))
        end
    end.
Proof.
  destruct (strategy_run (strategy api) o w) as [[r|e] w1] eqn:Hrun;
    destruct o; simpl in Hrun; simpl facade_run; facade_steps; rewrite Hrun;
    try reflexivity;
    rewrite run_bind, run_lift; destruct (json r) as [j|e]; try reflexivity;
    rewrite run_bind; unfold set_response at 1; cbn [fst snd];
    now rewrite run_lift.
Qed.

(** X23.  An operation of the facade never changes the strategy of the
    facade, and the world it leaves (the log of calls and the store) is the
    one the operation of the strategy left: the facade calls nothing
    itself. *)
Theorem facade_keeps_strategy o api w :
  strategy (fst (snd (facade_run o (api, w)))) = strategy api
  /\ snd (snd (facade_run o (api, w))) = snd (strategy_run (strategy api) o w).
Proof.
  rewrite facade_run_unfold.
  destruct (strategy_run (strategy api) o w) as [[r|e] w1]; [|split; reflexivity].
  destruct (json r); split; reflexivity.
Qed.

(** X26.  The response slot holds one body, that of the last operation
    whose response was decoded: after an operation [o1] and then an operation
    [o2] whose response decodes to [j2], the slot holds [j2], whatever [o1]
    left in it. *)
Theorem facade_slot_holds_last o1 o2 api w r2 w2 j2 :
  strategy_run (strategy api) o2 (snd (snd (facade_run o1 (api, w)))) = (Ok r2, w2) ->
  json r2 = Ok j2 ->
  response (fst (snd (facade_run o2 (snd (facade_run o1 (api, w)))))) = j2.
Proof.
  intros Hrun Hjson.
  destruct (facade_run o1 (api, w)) as [r1 [api1 w1]] eqn:E1.
  assert (strategy api1 = strategy api) as Hs.
  { pose proof (facade_run_unfold o1 api w) as H. rewrite E1 in H.
    destruct (strategy_run (strategy api) o1 w) as [[r|e] w']; [|now inversion H].
    destruct (json r); now inversion H. }
  cbn [snd] in *. rewrite facade_run_unfold, Hs, Hrun, Hjson. reflexivity.
Qed.

Section FacadeMore.

Variable transport : list call -> call -> result Response.
Variable slugify : string -> string.
Variable json_dumps : pydict -> string.

Local Abbreviation strategy_for := (strategy_of transport slugify json_dumps).

Lemma delete_project_refused_run p self key slug w r w1 j v :
  project_details (strategy_for p self) key w = (Ok r, w1) ->
  raise_for_status r = Ok tt ->
  json r = Ok j ->
  subscript j (identifying_field p) = Ok v ->
  v <> DStr slug ->
  delete_project (strategy_for p self) key slug w = (Ok HTTP400_DELETION_REFUSED, w1).
Proof.
  intros Hfetch Hstatus Hjson Hfield Hne. apply eq_str_false in Hne.
  destruct p; simpl in *.
  - unfold Bitbucket.delete_project. run_known. now rewrite Hne.
  - unfold GitHub.delete_project. run_known. now rewrite Hne.
  - unfold GitLab.delete_project. run_known. now rewrite Hne.
Qed.

(** X24.  A refused deletion through the facade, on each provider: when
    the fetched project has another identifying field than [slug],
    [delete_project] of the facade raises the HTTP error 400, the slot holds
    the message of the refusal, and the world is the one the fetch left. *)
Theorem facade_delete_refused p self slot key slug w r w1 j v :
  project_details (strategy_for p self) key w = (Ok r, w1) ->
  raise_for_status r = Ok tt ->
  json r = Ok j ->
  subscript j (identifying_field p) = Ok v ->
  v <> DStr slug ->
  facade_run (DeleteProject key slug)
      ({| strategy := strategy_for p self; response := slot |}, w) =
    (Raise (HTTPError 400),
     ({| strategy := strategy_for p self;
         response := DDict [("message",
                             DStr "Slug does not match project. Deletion refused.")] |},
      w1)).
Proof.
  intros Hfetch Hstatus Hjson Hfield Hne.
  rewrite facade_run_unfold. cbn [strategy strategy_run].
  now rewrite (delete_project_refused_run p self key slug w r w1 j v).
Qed.

(** X25.  [add_deploy_key] of a facade on Bitbucket raises
    [NotImplementedError] and leaves the slot and the world as they were. *)
Theorem facade_bitbucket_add_deploy_key self slot project_id key_title ssh_key read_only w :
  facade_run (AddDeployKey project_id key_title ssh_key read_only)
      ({| strategy := Bitbucket.BitbucketStrategy transport slugify self;
          response := slot |}, w) =
    (Raise (NotImplementedError "Not available on Bitbucket, we're sorry!"),
     ({| strategy := Bitbucket.BitbucketStrategy transport slugify self;
         response := slot |}, w)).
Proof. now rewrite facade_run_unfold. Qed.

End FacadeMore.

(** X21 on a deletion on GitLab whose fetch is answered 404: the error of
    the strategy is raised and the slot stays [None]. *)
Lemma facade_propagates_strategy_error_witness :
  facade_run (DeleteProject "123" "demo")
      (ServiceAPI_init (Sample.strategy_for 404 gitlab), Sample.start) =
    (Raise (HTTPError 404),
     (ServiceAPI_init (Sample.strategy_for 404 gitlab),
      snd (GitLab.delete_project (Sample.provider_with 404) Sample.gitlab_self
             "123" "demo" Sample.start))).
Proof.
  apply (facade_propagates_strategy_error (DeleteProject "123" "demo")
           (ServiceAPI_init (Sample.strategy_for 404 gitlab)) Sample.start).
  reflexivity.
Defined.

(** X22 on a listing answered 401 with a body that is not JSON: the facade
    raises [ValueError], not the HTTP error. *)
Lemma facade_decode_error_witness :
  facade_run ListProjects
      (ServiceAPI_init (GitLab.GitLabStrategy Sample.refusing Sample.gitlab_self),
       Sample.start) =
    (Raise ValueError,
     (ServiceAPI_init (GitLab.GitLabStrategy Sample.refusing Sample.gitlab_self),
      snd (GitLab.list_projects Sample.refusing Sample.gitlab_self Sample.start))).
Proof.
  apply (facade_decode_error ListProjects
           (ServiceAPI_init (GitLab.GitLabStrategy Sample.refusing Sample.gitlab_self))
           Sample.start
           {| status_code := 401; reason := "Unauthorized"; content := None |});
    reflexivity.
Defined.

Lemma facade_slot_holds_last_witness :
  response (fst (snd (facade_run (ProjectDetails "123")
     (snd (facade_run (DeleteProject "123" "wrong")
             (ServiceAPI_init (Sample.strategy_for 200 gitlab), Sample.start)))))) =
  Sample.demo.
Proof.
  apply (facade_slot_holds_last (DeleteProject "123" "wrong") (ProjectDetails "123")
           (ServiceAPI_init (Sample.strategy_for 200 gitlab)) Sample.start
           (Sample.answer 200 Sample.demo)
           (snd (snd (facade_run (ProjectDetails "123")
              (snd (facade_run (DeleteProject "123" "wrong")
                      (ServiceAPI_init (Sample.strategy_for 200 gitlab), Sample.start)))))));
    vm_compute; reflexivity.
Defined.

Lemma facade_delete_refused_witness :
  facade_run (DeleteProject "123" "wrong")
      ({| strategy := Sample.strategy_for 200 github; response := DNone |}, Sample.start) =
    (Raise (HTTPError 400),
     ({| strategy := Sample.strategy_for 200 github;
         response := DDict [("message",
                             DStr "Slug does not match project. Deletion refused.")] |},
      snd (project_details (Sample.strategy_for 200 github) "123" Sample.start))).
Proof.
  apply (facade_delete_refused (Sample.provider_with 200) Sample.slugify Sample.json_dumps
           github Sample.github_self DNone "123" "wrong" Sample.start
           (Sample.answer 200 Sample.demo) _ Sample.demo (DStr "demo"));
    [vm_compute; reflexivity|reflexivity|reflexivity|reflexivity|discriminate].
Defined.

(** * More on merging *)

Lemma dict_get_snoc {V} (d : list (string * V)) k v :
  dict_get d k = None -> dict_get (d ++ [(k, v)]) k = Some v.
Proof.
  intros H. rewrite <- (dict_set_fresh d k v H), dict_get_set.
  now rewrite String.eqb_refl.
Qed.

(** X27.  [merge_dict] with no keyword returns what it was given, a
    dictionary or not, and changes nothing; with a keyword and a first
    argument that is not a dictionary it raises [TypeError] before any
    change. *)
Theorem merge_dict_degenerate w :
  (forall v, merge_dict v [] w = (Ok v, w))
  /\ (forall v key value rest,
        (forall l, v <> VRef l) ->
        merge_dict v ((key, value) :: rest) w = (Raise TypeError, w)).
Proof.
  split; [reflexivity|].
  intros v key value rest Hv.
  destruct v; try reflexivity. now destruct (Hv l).
Qed.

Lemma merge_dict_degenerate_witness :
  merge_dict VNone [("headers", VRef 2)] Sample.merging = (Raise TypeError, Sample.merging).
Proof.
  destruct (merge_dict_degenerate Sample.merging) as (_ & H).
  apply H. discriminate.
Defined.

(** X28.  When [thedict] holds a dictionary under [key] and the value
    given for [key] is not a dictionary, nothing is merged: [None], a boolean
    or an integer raise [TypeError], a string with characters raises
    [ValueError], and the empty string is accepted and changes nothing. *)
Theorem merge_dict_value_not_dict t d key x w :
  heap w !! t = Some d ->
  dict_get d key = Some (VRef x) ->
  merge_dict (VRef t) [(key, VNone)] w = (Raise TypeError, w)
  /\ (forall b, merge_dict (VRef t) [(key, VBool b)] w = (Raise TypeError, w))
  /\ (forall z, merge_dict (VRef t) [(key, VInt z)] w = (Raise TypeError, w))
  /\ (forall a s, merge_dict (VRef t) [(key, VStr (String a s))] w = (Raise ValueError, w))
  /\ merge_dict (VRef t) [(key, VStr "")] w = (Ok (VRef t), w).
Proof.
  intros Ht Hk. unfold merge_dict, for_each, merge_entry, try_except.
  repeat split; intros; rewrite !run_bind; unfold getitem; now rewrite Ht, Hk.
Qed.

Lemma merge_dict_value_not_dict_witness :
  merge_dict (VRef 0) [("headers", VNone)] Sample.merging = (Raise TypeError, Sample.merging)
  /\ merge_dict (VRef 0) [("headers", VStr "")] Sample.merging = (Ok (VRef 0), Sample.merging).
Proof.
  destruct (merge_dict_value_not_dict 0 [("headers", VRef 1)] "headers" 1 Sample.merging
              eq_refl eq_refl) as (Hn & _ & _ & _ & He).
  split; assumption.
Defined.

(** X29.  A dictionary added under a missing key is not copied: after
    [merge_dict thedict key=first], a second [merge_dict thedict key=second]
    merges the items of [second] into the dictionary [first] itself. *)
Theorem merge_dict_keeps_alias t d key n dn n2 dn2 w :
  heap w !! t = Some d ->
  dict_get d key = None ->
  heap w !! n = Some dn ->
  heap w !! n2 = Some dn2 ->
  t <> n -> t <> n2 ->
  (merge_dict (VRef t) [(key, VRef n)] ;; merge_dict (VRef t) [(key, VRef n2)]) w =
    (Ok (VRef t),
     {| heap := <[n := dict_update dn dn2]> (<[t := d ++ [(key, VRef n)]]> (heap w));
        calls := calls w |}).
Proof.
  intros Ht Hk Hn Hn2 Htn Htn2.
  pose proof (lookup_lt_Some _ _ _ Ht) as Hlt.
  assert (merge_dict (VRef t) [(key, VRef n)] w =
            (Ok (VRef t), {| heap := <[t := d ++ [(key, VRef n)]]> (heap w);
                             calls := calls w |})) as E1.
  { unfold merge_dict, for_each, merge_entry, try_except.
    rewrite !run_bind. unfold getitem, update_items.
    rewrite Ht, Hk. rewrite Ht. rewrite run_ret.
    unfold dict_update. simpl fold_left.
    now rewrite (dict_set_fresh d key (VRef n) Hk). }
  rewrite (run_bind_ok _ _ _ _ _ E1).
  unfold merge_dict, for_each, merge_entry, try_except.
  rewrite !run_bind. unfold getitem. simpl heap.
  rewrite (list_lookup_insert_eq (heap w) t) by assumption.
  rewrite (dict_get_snoc d key (VRef n) Hk).
  unfold update. simpl heap.
  rewrite (list_lookup_insert_ne (heap w) t n2) by assumption. rewrite Hn2.
  unfold update_items. simpl heap.
  rewrite (list_lookup_insert_ne (heap w) t n) by assumption. rewrite Hn.
  reflexivity.
Qed.

Lemma merge_dict_keeps_alias_witness :
  (merge_dict (VRef 1) [("headers", VRef 2)] ;;
   merge_dict (VRef 1) [("headers", VRef 3)]) Sample.merging =
    (Ok (VRef 1),
     {| heap := <[2%nat := dict_update [("b", VInt 2)] [("headers", VInt 7)]]>
                  (<[1%nat := [("a", VInt 1)] ++ [("headers", VRef 2)]]>
                     (heap Sample.merging));
        calls := calls Sample.merging |}).
Proof.
  apply (merge_dict_keeps_alias 1 [("a", VInt 1)] "headers" 2 [("b", VInt 2)]
           3 [("headers", VInt 7)] Sample.merging); try reflexivity; discriminate.
Defined.
